(** * Cereal Box Style MCP server: a shallow embedding of [server.py]

    The tools of [src/cereal_box_style_mcp/server.py] are embedded as Rocq
    functions over a small model of the Python values they handle.  Python
    dictionaries keep their insertion order, so they are association lists
    with the in-place update of [d[k] = v]; strings are sequences of
    characters of code point below 256, one [ascii] per character;
    exceptions are an error type;
    the one tool that mutates its argument ([refine_component]) passes the
    state of the caller's object explicitly.

    The rule tables ([CATEGORIES], [TEMPLATES], [TRANSFORMATION_MAPS]) and
    the helpers imported from [tools/] are parameters of the development:
    every theorem about the tools holds for all of them. *)

From Stdlib Require Import List ZArith Lia Bool String Ascii Floats.
From Stdlib Require Import Permutation Sorted DecimalString.
Import ListNotations.
Set Warnings "-inexact-float,-register-all".

Local Open Scope string_scope.
Local Open Scope Z_scope.

(** ** Exceptions *)

Inductive exn : Type :=
| ValueError (msg : string)
| KeyError (key : string)
| AttributeError
| TypeError
| IndexError.

Inductive result (A : Type) : Type :=
| Ok (a : A)
| Raise (e : exn).

Arguments Ok {A} a.
Arguments Raise {A} e.

Definition bind {A B : Type} (m : result A) (k : A -> result B) : result B :=
  match m with
  | Ok a => k a
  | Raise e => Raise e
  end.

Notation "x <- m ;; k" := (bind m (fun x => k))
  (at level 61, m at next level, right associativity).

(** ** Python dictionaries: insertion-ordered, keyed by strings *)

Definition dict (V : Type) : Type := list (string * V).

Section Dict.
Context {V : Type}.

(** [d.get(k)] as an option: the first binding of [k]. *)
Fixpoint dict_get (k : string) (d : dict V) : option V :=
  match d with
  | [] => None
  | (k', v) :: d' => if String.eqb k' k then Some v else dict_get k d'
  end.

(** [k in d] *)
Definition dict_mem (k : string) (d : dict V) : bool :=
  match dict_get k d with
  | Some _ => true
  | None => false
  end.

(** [d[k] = v]: an existing key keeps its position, a new key goes last. *)
Fixpoint dict_set (k : string) (v : V) (d : dict V) : dict V :=
  match d with
  | [] => [(k, v)]
  | (k', v') :: d' =>
      if String.eqb k' k then (k', v) :: d' else (k', v') :: dict_set k v d'
  end.

Definition dict_keys (d : dict V) : list string := map fst d.
Definition dict_values (d : dict V) : list V := map snd d.

(** A dictionary holds each key once. *)
Definition dict_wf (d : dict V) : Prop := NoDup (dict_keys d).

(** A dictionary built by successive assignments, as a loop or a
    comprehension does. *)
Definition dict_of_items (items : list (string * V)) : dict V :=
  fold_left (fun acc kv => dict_set (fst kv) (snd kv) acc) items [].
End Dict.

(** Decidable form of [dict_wf], for concrete stores. *)
Fixpoint distinctb (l : list string) : bool :=
  match l with
  | [] => true
  | x :: l' => negb (existsb (String.eqb x) l') && distinctb l'
  end.

(** ** Python values *)

Inductive pyval : Type :=
| PyNone
| PyBool (b : bool)
| PyInt (z : Z)
| PyStr (s : string)
| PyList (l : list pyval)
| PyDict (d : list (string * pyval)).

(** [o.get(k, default)]; only dictionaries have [get]. *)
Definition py_get (o : pyval) (k : string) (default : pyval) : result pyval :=
  match o with
  | PyDict d =>
      match dict_get k d with
      | Some v => Ok v
      | None => Ok default
      end
  | _ => Raise AttributeError
  end.

(** [v in l] for a list [l] of strings: only an equal string is a member. *)
Definition py_in_strs (v : pyval) (l : list string) : bool :=
  match v with
  | PyStr s => existsb (String.eqb s) l
  | _ => false
  end.

(** [v == s] for a string literal [s]. *)
Definition py_eq_str (v : pyval) (s : string) : bool :=
  match v with
  | PyStr s' => String.eqb s' s
  | _ => false
  end.

(** *** Strings

    A [string] is a Python [str] as a sequence of characters, one [ascii]
    per character, the [ascii] being the character's code point: the
    characters of the model are those of code point 0 to 255 (Latin-1), not
    the bytes of an encoding.  E-acute is the single character of code
    point 233.  On these strings [len], [lower], [repr] and [in] below are
    the Python builtins exactly; characters above code point 255 are
    outside the model. *)

Definition dquote : ascii := ascii_of_nat 34.
Definition squote : ascii := ascii_of_nat 39.
Definition backslash : ascii := ascii_of_nat 92.

Fixpoint has_char (c : ascii) (s : string) : bool :=
  match s with
  | EmptyString => false
  | String c' s' => Ascii.eqb c c' || has_char c s'
  end.

Definition hex_digit (n : nat) : ascii :=
  ascii_of_nat (if Nat.ltb n 10 then 48 + n else 87 + n)%nat.

Definition str1 (c : ascii) : string := String c EmptyString.

(** One character of [repr(s)], inside the quote [q]. *)
Definition repr_char (q c : ascii) : string :=
  let n := nat_of_ascii c in
  if Ascii.eqb c backslash then String backslash (str1 backslash)
  else if Ascii.eqb c q then String backslash (str1 q)
  else if Nat.eqb n 10 then String backslash "n"
  else if Nat.eqb n 13 then String backslash "r"
  else if Nat.eqb n 9 then String backslash "t"
  else if Nat.ltb n 32 || (Nat.leb 127 n && Nat.leb n 160) || Nat.eqb n 173 then
    (* not printable: the control characters 0-31 and 127-159, the
       no-break space 160 and the soft hyphen 173 *)
    String backslash
      (String "x" (String (hex_digit (n / 16)) (str1 (hex_digit (n mod 16)))))
  else str1 c.

Fixpoint repr_chars (q : ascii) (s : string) : string :=
  match s with
  | EmptyString => EmptyString
  | String c s' => repr_char q c ++ repr_chars q s'
  end.

(** [repr(s)] of a string: single quotes, unless the string holds a single
    quote and no double quote. *)
Definition repr_str (s : string) : string :=
  let q := if has_char squote s && negb (has_char dquote s)
           then dquote else squote in
  String q (repr_chars q s ++ str1 q).

(** [str(n)] of an integer. *)
Definition repr_int (z : Z) : string := NilZero.string_of_int (Z.to_int z).

(** [repr(v)] *)
Fixpoint py_repr (v : pyval) : string :=
  match v with
  | PyNone => "None"
  | PyBool true => "True"
  | PyBool false => "False"
  | PyInt z => repr_int z
  | PyStr s => repr_str s
  | PyList l => "[" ++ String.concat ", " (map py_repr l) ++ "]"
  | PyDict d =>
      "{" ++ String.concat ", "
               (map (fun kv => repr_str (fst kv) ++ ": " ++ py_repr (snd kv)) d)
          ++ "}"
  end.

(** [str(v)]: a string is itself, anything else is its [repr]. *)
Definition py_str (v : pyval) : string :=
  match v with
  | PyStr s => s
  | _ => py_repr v
  end.

(** [c.lower()] of one character: the letters A to Z, and the Latin-1
    capitals 192 to 222 (A-grave to Thorn) except the multiplication sign
    215, move 32 code points up; nothing else below 256 changes. *)
Definition lower_char (c : ascii) : ascii :=
  let n := nat_of_ascii c in
  if (Nat.leb 65 n && Nat.leb n 90)
     || (Nat.leb 192 n && Nat.leb n 222 && negb (Nat.eqb n 215))
  then ascii_of_nat (n + 32)
  else c.

(** [s.lower()] *)
Fixpoint py_lower (s : string) : string :=
  match s with
  | EmptyString => EmptyString
  | String c s' => String (lower_char c) (py_lower s')
  end.

(** [k in s] for strings: [k] occurs as a contiguous substring of [s]. *)
Fixpoint str_in (k s : string) : bool :=
  String.prefix k s ||
  match s with
  | EmptyString => false
  | String _ s' => str_in k s'
  end.

(** [l.append(x)] *)
Definition append {A : Type} (l : list A) (x : A) : list A := (l ++ [x])%list.

(** [len(s)]: the number of characters. *)
Definition py_len (s : string) : Z := Z.of_nat (String.length s).

(** [sum(...)] over integers. *)
Definition py_sum (l : list Z) : Z := fold_left Z.add l 0.

(** [sorted(l, key=key, reverse=True)]: Python's sort is stable, and stays
    so under [reverse=True]; insertion before the first element with a
    smaller or equal key, from the right, is that sort. *)
Section Sorted.
Context {A : Type} (key : A -> Z).

Fixpoint insert_desc (x : A) (l : list A) : list A :=
  match l with
  | [] => [x]
  | y :: l' => if key y <=? key x then x :: y :: l' else y :: insert_desc x l'
  end.

Definition sorted_desc (l : list A) : list A :=
  fold_right insert_desc [] l.
End Sorted.

(** ** The data model of [server.py] *)

(** A category of [categories.json].  The three fields the scorer reads
    with [rules.get(..., [])] may be absent. *)
Record category_rules : Type := {
  description : string;
  visual_dna : list string;
  ideal_subjects : option (list string);
  compatible_moods : option (list string);
  trigger_keywords : option (list string);
  mandatory_markers : list string;
  negative_prompts : list string
}.

(** [rules.get(field, [])] *)
Definition get_list (field : option (list string)) : list string :=
  match field with
  | Some l => l
  | None => []
  end.

(** A template of [templates.json]. *)
Record Template : Type := {
  emphasis_order : list string;
  structure : pyval
}.

(** The [style_params] dictionary: the options [apply_transformations]
    documents, and the [name] and [composition_density] entries of the
    presets of [generate_variants].  [None] is an absent key. *)
Record StyleParams : Type := {
  sp_name : option string;
  sp_energy_level : option float;
  sp_color_saturation : option string;
  sp_composition_density : option float;
  sp_era : option string;
  sp_metallic_accent : option string;
  sp_outline_weight : option string
}.

(** The empty dictionary [{}] of style parameters. *)
Definition no_params : StyleParams :=
  {| sp_name := None; sp_energy_level := None; sp_color_saturation := None;
     sp_composition_density := None; sp_era := None;
     sp_metallic_accent := None; sp_outline_weight := None |}.

(** The [metadata] dictionary of a skeleton; [user_modifications] is
    [None] while the key is absent. *)
Record Metadata : Type := {
  md_category : string;
  estimated_tokens : Z;
  ready_for_synthesis : bool;
  user_modifications : option (list string)
}.

Record Skeleton : Type := {
  sections : dict pyval;
  emphasis : dict float;
  sk_template : Template;
  negative_prompt : string;
  sk_metadata : Metadata
}.

(** The value [suggest_category] returns. *)
Record Suggestion : Type := {
  primary_suggestion : string;
  alternatives : list string;
  scores : dict Z;
  reasoning : string
}.

(** One entry of the list [generate_variants] returns. *)
Record Variant : Type := {
  v_name : string;
  v_style_params : StyleParams;
  v_skeleton : Skeleton
}.

(** The per-category value of the [scores] dictionary inside
    [suggest_category]. *)
Record score_entry : Type := {
  score : Z;
  reasons : list string
}.

(** ** The tools of [server.py] *)

Section Server.

(** The rule tables loaded from [data/] at start-up. *)
Variable CATEGORIES : dict category_rules.
Variable TRANSFORMATION_MAPS : pyval.
Variable TEMPLATES : dict Template.

(** The helpers imported from [tools/transformer.py] and [tools/utils.py].
    They are taken as functions that return: the specification has them
    never fail on well-typed input.  What a helper does with input that is
    not well typed is its own, and no theorem below depends on it. *)
Variable apply_category_transformation :
  dict pyval -> category_rules -> pyval -> StyleParams -> dict pyval.
Variable order_by_importance :
  dict pyval -> pyval -> list string -> dict pyval.
Variable generate_negative_prompt : string -> dict category_rules -> string.

(** *** [suggest_category] *)

(** [parsed_components.get(outer, {}).get(inner, default)] *)
Definition get_nested (parsed_components : dict pyval)
    (outer inner : string) (default : pyval) : result pyval :=
  o <- py_get (PyDict parsed_components) outer (PyDict []) ;;
  py_get o inner default.

(** The body of the loop over [CATEGORIES.items()]: the entry stored in
    [scores[category]]. *)
Definition score_category (parsed_components : dict pyval)
    (category : string) (rules : category_rules) : result score_entry :=
  let score := 0 in
  let reasons : list string := [] in
  (* Score based on subject type *)
  subject_type <- get_nested parsed_components "subject" "type" PyNone ;;
  let '(score, reasons) :=
    if py_in_strs subject_type (get_list (ideal_subjects rules))
    then (score + 3,
          append reasons ("Subject type '" ++ py_str subject_type
                            ++ "' is ideal for this category"))
    else (score, reasons) in
  (* Score based on mood *)
  mood <- get_nested parsed_components "mood" "emotion" PyNone ;;
  let '(score, reasons) :=
    if py_in_strs mood (get_list (compatible_moods rules))
    then (score + 2,
          append reasons ("Mood '" ++ py_str mood
                            ++ "' aligns with category aesthetic"))
    else (score, reasons) in
  (* Score based on energy level *)
  action_energy <-
    get_nested parsed_components "action" "energy_level" (PyStr "medium") ;;
  let '(score, reasons) :=
    if existsb (String.eqb category) ["kid_chaos"; "mascot_theater"]
       && py_in_strs action_energy ["high"; "extreme"]
    then (score + 2, append reasons "High energy matches dynamic category")
    else if existsb (String.eqb category) ["health_halo"; "premium_disruptor"]
            && py_eq_str action_energy "low"
    then (score + 2, append reasons "Low energy suits minimalist aesthetic")
    else (score, reasons) in
  (* Score based on keyword triggers *)
  let prompt_text := py_lower (py_str (PyDict parsed_components)) in
  let score :=
    fold_left
      (fun score keyword =>
         if str_in keyword prompt_text then score + 1 else score)
      (get_list (trigger_keywords rules)) score in
  Ok {| score := score; reasons := reasons |}.

(** The loop [for category, rules in CATEGORIES.items()], filling
    [scores]. *)
Fixpoint score_loop (parsed_components : dict pyval)
    (items : list (string * category_rules)) (scores : dict score_entry)
  : result (dict score_entry) :=
  match items with
  | [] => Ok scores
  | (category, rules) :: rest =>
      entry <- score_category parsed_components category rules ;;
      score_loop parsed_components rest (dict_set category entry scores)
  end.

(** [sorted(scores.items(), key=lambda x: x[1]['score'], reverse=True)] *)
Definition rank (scores : dict score_entry) : list (string * score_entry) :=
  sorted_desc (fun x => score (snd x)) scores.

Definition suggest_category (parsed_components : dict pyval)
  : result Suggestion :=
  scores <- score_loop parsed_components CATEGORIES [] ;;
  let ranked := rank scores in
  match ranked with
  | [] => Raise IndexError
  | top :: _ =>
      Ok {| primary_suggestion := fst top;
            alternatives := map fst (firstn 2 (skipn 1 ranked));
            scores :=
              dict_of_items (map (fun cd => (fst cd, score (snd cd))) scores);
            reasoning :=
              match reasons (snd top) with
              | [] => "General compatibility"
              | _ :: _ => String.concat "; " (reasons (snd top))
              end |}
  end.

(** *** [get_category_rules] *)

Definition get_category_rules (category : string) : result category_rules :=
  match dict_get category CATEGORIES with
  | None =>
      let available := PyList (map PyStr (dict_keys CATEGORIES)) in
      Raise (ValueError ("Unknown category: " ++ category
                           ++ ". Available: " ++ py_str available))
  | Some rules => Ok rules
  end.

(** *** [apply_transformations] *)

Definition apply_transformations (parsed_components : dict pyval)
    (category : string) (style_params : option StyleParams)
  : result (dict pyval) :=
  match dict_get category CATEGORIES with
  | None => Raise (ValueError ("Unknown category: " ++ category))
  | Some rules =>
      let params :=
        match style_params with
        | Some p => p
        | None => no_params
        end in
      Ok (apply_category_transformation
            parsed_components rules TRANSFORMATION_MAPS params)
  end.

(** *** [build_prompt_skeleton] *)

(** [o.items()]; only dictionaries have [items]. *)
Definition py_items (o : pyval) : result (list (string * pyval)) :=
  match o with
  | PyDict d => Ok d
  | _ => Raise AttributeError
  end.

(** The number a weight is compared as in [weight > 60]; anything but an
    integer (or a boolean, which is one) cannot be ordered against 60. *)
Definition py_num (v : pyval) : result Z :=
  match v with
  | PyInt z => Ok z
  | PyBool b => Ok (if b then 1 else 0)
  | _ => Raise TypeError
  end.

(** The loop [for component, weight in semantic_weights.items()], filling
    [emphasis]. *)
Fixpoint emphasis_loop (items : list (string * pyval)) (emphasis : dict float)
  : result (dict float) :=
  match items with
  | [] => Ok emphasis
  | (component, weight) :: rest =>
      weight <- py_num weight ;;
      emphasis_loop rest
        (if weight >? 60 then dict_set component 1.3%float emphasis
         else if weight >? 40 then dict_set component 1.15%float emphasis
         else if weight >? 20 then dict_set component 1.0%float emphasis
         else dict_set component 0.85%float emphasis)
  end.

(** [sum(len(str(v)) for v in sections.values()) // 4] *)
Definition estimate_tokens (sections : dict pyval) : Z :=
  py_sum (map (fun v => py_len (py_str v)) (dict_values sections)) / 4.

Definition build_prompt_skeleton (transformed_components : dict pyval)
    (category : string) (semantic_weights : pyval) : result Skeleton :=
  match dict_get category TEMPLATES with
  | None => Raise (KeyError category)
  | Some template =>
      (* Order sections by importance *)
      let ordered_sections :=
        order_by_importance transformed_components semantic_weights
          (emphasis_order template) in
      (* Calculate emphasis weights for prompt syntax *)
      items <- py_items semantic_weights ;;
      emphasis <- emphasis_loop items [] ;;
      (* Generate negative prompt *)
      let negative := generate_negative_prompt category CATEGORIES in
      (* Estimate tokens *)
      let estimated_tokens := estimate_tokens ordered_sections in
      Ok {| sections := ordered_sections;
            emphasis := emphasis;
            sk_template := template;
            negative_prompt := negative;
            sk_metadata :=
              {| md_category := category;
                 estimated_tokens := estimated_tokens;
                 ready_for_synthesis := true;
                 user_modifications := None |} |}
  end.

(** *** [refine_component] *)

(** The tool mutates the dictionary it is given and returns that same
    object: the model returns the outcome together with the state of the
    caller's skeleton after the call. *)
Definition refine_component (skeleton : Skeleton)
    (component_name new_value : string) : result unit * Skeleton :=
  if negb (dict_mem component_name (sections skeleton)) then
    let available := PyList (map PyStr (dict_keys (sections skeleton))) in
    (Raise (ValueError ("Unknown component: " ++ component_name
                          ++ ". Available: " ++ py_str available)),
     skeleton)
  else
    (* skeleton['sections'][component_name] = new_value *)
    let sections' :=
      dict_set component_name (PyStr new_value) (sections skeleton) in
    (* Track user modifications *)
    let modifications :=
      match user_modifications (sk_metadata skeleton) with
      | None => []
      | Some l => l
      end in
    let modifications := append modifications component_name in
    (* Recalculate token estimate *)
    let tokens := estimate_tokens sections' in
    (Ok tt,
     {| sections := sections';
        emphasis := emphasis skeleton;
        sk_template := sk_template skeleton;
        negative_prompt := negative_prompt skeleton;
        sk_metadata :=
          {| md_category := md_category (sk_metadata skeleton);
             estimated_tokens := tokens;
             ready_for_synthesis := ready_for_synthesis (sk_metadata skeleton);
             user_modifications := Some modifications |} |}).

(** A sequence of refinements of one skeleton, stopped by the first
    failure. *)
Fixpoint refine_all (edits : list (string * string)) (skeleton : Skeleton)
  : result unit * Skeleton :=
  match edits with
  | [] => (Ok tt, skeleton)
  | (component_name, new_value) :: rest =>
      match refine_component skeleton component_name new_value with
      | (Ok _, skeleton') => refine_all rest skeleton'
      | (Raise e, skeleton') => (Raise e, skeleton')
      end
  end.

(** *** [generate_variants] *)

Definition preset (name : string) (energy_level : float)
    (color_saturation : string) (composition_density : float)
    (era : option string) : StyleParams :=
  {| sp_name := Some name;
     sp_energy_level := Some energy_level;
     sp_color_saturation := Some color_saturation;
     sp_composition_density := Some composition_density;
     sp_era := era;
     sp_metallic_accent := None;
     sp_outline_weight := None |}.

Definition param_sets : list StyleParams :=
  [ preset "Subtle" 0.5 "pastel" 0.4 None;
    preset "Balanced" 0.75 "bright" 0.7 None;
    preset "Intense" 1.0 "neon" 1.0 None;
    preset "Vintage" 0.6 "muted" 0.5 (Some "1970s");
    preset "Dramatic" 0.9 "bold" 0.8 None ].

(** [d[k]] *)
Definition dict_item {V : Type} (k : string) (d : dict V) : result V :=
  match dict_get k d with
  | Some v => Ok v
  | None => Raise (KeyError k)
  end.

(** The loop [for i, params in enumerate(param_sets[:count])], filling
    [variants]. *)
Fixpoint variants_loop (parsed_components : dict pyval) (category : string)
    (i : Z) (sets : list StyleParams) (variants : list Variant)
  : result (list Variant) :=
  match sets with
  | [] => Ok variants
  | params :: rest =>
      (* Apply transformation with these params *)
      transformed <-
        apply_transformations parsed_components category (Some params) ;;
      (* Build skeleton *)
      weights <- dict_item "semantic_weights" parsed_components ;;
      skeleton <- build_prompt_skeleton transformed category weights ;;
      name <- match sp_name params with
              | Some n => Ok n
              | None => Raise (KeyError "name")
              end ;;
      variants_loop parsed_components category (i + 1) rest
        (append variants
           {| v_name := "Variant " ++ repr_int (i + 1) ++ " (" ++ name ++ ")";
              v_style_params := params;
              v_skeleton := skeleton |})
  end.

Definition generate_variants (parsed_components : dict pyval)
    (category : string) (count : Z) : result (list Variant) :=
  if (count <? 1) || (count >? 5) then
    Raise (ValueError "Count must be between 1 and 5")
  else
    variants_loop parsed_components category 0
      (firstn (Z.to_nat count) param_sets) [].

End Server.

(** *** [parse_prompt] *)

Section Parsing.
Variable TRANSFORMATION_MAPS : pyval.

(** The helpers imported from [tools/parser.py] and [tools/utils.py]. *)
Variable parse_prompt_components : string -> pyval -> dict pyval.
Variable calculate_semantic_weights : dict pyval -> pyval.

Definition parse_prompt (user_prompt : string) : dict pyval :=
  let components := parse_prompt_components user_prompt TRANSFORMATION_MAPS in
  dict_set "semantic_weights" (calculate_semantic_weights components)
    components.
End Parsing.

(** *** [get_available_categories] *)

(** The value listed for one category. *)
Record CategoryInfo : Type := {
  info_description : string;
  info_visual_dna : list string;
  ideal_for : list string;
  mood_match : list string
}.

Definition get_available_categories (CATEGORIES : dict category_rules)
  : dict CategoryInfo :=
  dict_of_items
    (map (fun nc =>
            (fst nc,
             {| info_description := description (snd nc);
                info_visual_dna := visual_dna (snd nc);
                ideal_for := get_list (ideal_subjects (snd nc));
                mood_match := get_list (compatible_moods (snd nc)) |}))
         CATEGORIES).

(** ** The specification's words, for comparison with the code *)

(** [parsed.outer.inner], [default] when either level is absent. *)
Definition lookup2 (parsed : dict pyval) (outer inner : string)
    (default : pyval) : pyval :=
  match dict_get outer parsed with
  | Some (PyDict d) =>
      match dict_get inner d with
      | Some v => v
      | None => default
      end
  | _ => default
  end.

(** The sub-dictionaries the scorer reads are dictionaries when present. *)
Definition dict_or_absent (k : string) (parsed : dict pyval) : Prop :=
  match dict_get k parsed with
  | None | Some (PyDict _) => True
  | Some _ => False
  end.

Definition parsed_wf (parsed : dict pyval) : Prop :=
  dict_or_absent "subject" parsed /\
  dict_or_absent "mood" parsed /\
  dict_or_absent "action" parsed.

(** [action.energy_level] is absent: there is no [action], or it has no
    [energy_level] key. *)
Definition energy_absent (parsed : dict pyval) : Prop :=
  dict_get "action" parsed = None \/
  exists a, dict_get "action" parsed = Some (PyDict a) /\
            dict_get "energy_level" a = None.

Definition energetic (category : string) : bool :=
  String.eqb category "kid_chaos" || String.eqb category "mascot_theater".

Definition minimalist (category : string) : bool :=
  String.eqb category "health_halo" || String.eqb category "premium_disruptor".

(** The four contributions of the suggestion score, as the specification
    words them. *)
Definition spec_subject_points (parsed : dict pyval) (rules : category_rules)
  : Z :=
  if py_in_strs (lookup2 parsed "subject" "type" PyNone)
       (get_list (ideal_subjects rules))
  then 3 else 0.

Definition spec_mood_points (parsed : dict pyval) (rules : category_rules)
  : Z :=
  if py_in_strs (lookup2 parsed "mood" "emotion" PyNone)
       (get_list (compatible_moods rules))
  then 2 else 0.

Definition spec_energy_points (energy : pyval) (category : string) : Z :=
  if (energetic category
      && (py_eq_str energy "high" || py_eq_str energy "extreme"))
     || (minimalist category && py_eq_str energy "low")
  then 2 else 0.

(** The trigger keywords that occur in the lower-cased rendering of the
    whole parsed structure. *)
Definition spec_keyword_hits (parsed : dict pyval) (rules : category_rules)
  : list string :=
  filter (fun keyword => str_in keyword (py_lower (py_str (PyDict parsed))))
         (get_list (trigger_keywords rules)).

Definition spec_score (parsed : dict pyval) (category : string)
    (rules : category_rules) : Z :=
  spec_subject_points parsed rules
  + spec_mood_points parsed rules
  + spec_energy_points
      (lookup2 parsed "action" "energy_level" (PyStr "medium")) category
  + Z.of_nat (List.length (spec_keyword_hits parsed rules)).

(** The emphasis bands of the specification. *)
Definition spec_band (weight : Z) : float :=
  if 60 <? weight then 1.3%float
  else if 40 <? weight then 1.15%float
  else if 20 <? weight then 1.0%float
  else 0.85%float.

(** A weights mapping with integer scores, as a Python value. *)
Definition weights_mapping (weights : dict Z) : pyval :=
  PyDict (map (fun kw => (fst kw, PyInt (snd kw))) weights).

(** The names [generate_variants] gives its entries, in order. *)
Definition variant_names : list string :=
  [ "Variant 1 (Subtle)"; "Variant 2 (Balanced)"; "Variant 3 (Intense)";
    "Variant 4 (Vintage)"; "Variant 5 (Dramatic)" ].

(** ** A sample rule store *)

Module Sample.

Definition category (desc : string) (dna subjects moods keywords
                                     negatives : list string)
  : category_rules :=
  {| description := desc;
     visual_dna := dna;
     ideal_subjects := Some subjects;
     compatible_moods := Some moods;
     trigger_keywords := Some keywords;
     mandatory_markers := dna;
     negative_prompts := negatives |}.

(** Modelled from the spec: [data/categories.json] is not among the
    sources.  The seven identifiers and their order are those of section 6;
    the field contents are sample data. *)
Definition CATEGORIES : dict category_rules :=
  [ ("mascot_theater",
     category "Cartoon characters, bright colors, dynamic energy"
       ["cartoon character"; "bold outlines"]
       ["animal"; "human"] ["playful"; "happy"] ["mascot"; "cartoon"]
       ["photorealistic"; "muted colors"]);
    ("health_halo",
     category "Minimalist natural photography, muted tones"
       ["natural light"; "muted tones"]
       ["food"; "plant"] ["calm"; "serene"] ["organic"; "natural"]
       ["neon"; "cartoon"]);
    ("nostalgia_revival",
     category "Vintage screen print aesthetic, limited palettes"
       ["screen print"; "limited palette"]
       ["human"; "object"] ["nostalgic"] ["retro"; "vintage"]
       ["modern"; "gradient"]);
    ("premium_disruptor",
     category "Black backgrounds, metallics, luxury minimal"
       ["black background"; "metallic accent"]
       ["object"; "food"] ["calm"; "serious"] ["luxury"; "premium"]
       ["clutter"; "cartoon"]);
    ("kid_chaos",
     category "Neon explosion, maximum density, extreme angles"
       ["neon colors"; "extreme angles"]
       ["animal"; "creature"] ["playful"; "excited"] ["explosion"; "crazy"]
       ["minimalism"; "muted colors"]);
    ("transparent_honest",
     category "Clinical infographics, labeled components"
       ["infographic"; "labels"]
       ["food"; "object"] ["serious"] ["ingredient"; "label"]
       ["fantasy"; "cartoon"]);
    ("adventure_fantasy",
     category "Cinematic epic scale, magical effects"
       ["cinematic"; "magical glow"]
       ["creature"; "human"] ["excited"; "heroic"] ["dragon"; "quest"]
       ["flat design"; "infographic"]) ].

Definition TRANSFORMATION_MAPS : pyval := PyDict [].

(** Modelled from the spec: [data/templates.json] is not among the
    sources.  One template per category (section 3), each with an
    [emphasis_order]; the order is sample data. *)
Definition TEMPLATES : dict Template :=
  map (fun cr =>
         (fst cr,
          {| emphasis_order :=
               ["subject"; "action"; "setting"; "colors"; "effects";
                "style_markers"; "typography"];
             structure := PyDict [("category", PyStr (fst cr))] |}))
      CATEGORIES.

(** Modelled from the spec: [tools/utils.py] is not among the sources.
    Section 4.5: the sections are the template's [emphasis_order],
    filtered to the fields present in the transformed components. *)
Definition order_by_importance (transformed : dict pyval)
    (semantic_weights : pyval) (order : list string) : dict pyval :=
  flat_map (fun name =>
              match dict_get name transformed with
              | Some v => [(name, v)]
              | None => []
              end) order.

(** Modelled from the spec: [tools/utils.py] is not among the sources.
    Section 4.5: the category's [negative_prompts] joined into one string,
    in declared order; the separator is not specified, a comma is used. *)
Definition generate_negative_prompt (category : string)
    (categories : dict category_rules) : string :=
  match dict_get category categories with
  | Some rules => String.concat ", " (negative_prompts rules)
  | None => EmptyString
  end.

(** Modelled from the spec: [tools/transformer.py] is not among the
    sources.  Section 4.4, in its fallback form: each of subject, action
    and setting is a phrase built from the raw parsed value, [effects] and
    [style_markers] come from the category's [visual_dna]; [typography] is
    absent. *)
Definition apply_category_transformation (parsed : dict pyval)
    (rules : category_rules) (maps : pyval) (params : StyleParams)
  : dict pyval :=
  [ ("subject", PyStr (py_str (lookup2 parsed "subject" "type"
                                 (PyStr "subject"))));
    ("action", PyStr (py_str (lookup2 parsed "action" "verb"
                                (PyStr "posing"))));
    ("setting", PyStr (py_str (lookup2 parsed "setting" "location"
                                 (PyStr "plain background"))));
    ("colors", PyStr (match sp_color_saturation params with
                      | Some c => c
                      | None => "balanced"
                      end ++ " colors"));
    ("effects", PyStr (String.concat ", " (visual_dna rules)));
    ("style_markers", PyList (map PyStr (visual_dna rules))) ].

(** The example of the [parse_prompt] docstring: a tired chef tasting
    soup in a busy kitchen. *)
Definition chef : dict pyval :=
  [ ("subject", PyDict [("type", PyStr "human");
                        ("profession", PyStr "chef");
                        ("attributes", PyList [PyStr "tired"])]);
    ("action", PyDict [("verb", PyStr "tasting");
                       ("object", PyStr "soup");
                       ("energy_level", PyStr "low")]);
    ("setting", PyDict [("type", PyStr "indoor_specific");
                        ("location", PyStr "kitchen");
                        ("attributes", PyList [PyStr "busy"])]);
    ("mood", PyDict [("emotion", PyStr "calm")]);
    ("semantic_weights",
     weights_mapping [("subject", 35); ("action", 30); ("setting", 25);
                      ("mood", 10)]) ].

(** A prompt with no recognised action: [energy_level] is absent. *)
Definition still_life : dict pyval :=
  [ ("subject", PyDict [("type", PyStr "food")]);
    ("action", PyDict []);
    ("mood", PyDict [("emotion", PyStr "calm")]);
    ("semantic_weights",
     weights_mapping [("subject", 70); ("mood", 20)]) ].

Definition suggest_category :=
  suggest_category CATEGORIES.
Definition get_category_rules :=
  get_category_rules CATEGORIES.
Definition apply_transformations :=
  apply_transformations CATEGORIES TRANSFORMATION_MAPS
    apply_category_transformation.
Definition build_prompt_skeleton :=
  build_prompt_skeleton CATEGORIES TEMPLATES order_by_importance
    generate_negative_prompt.
Definition generate_variants :=
  generate_variants CATEGORIES TRANSFORMATION_MAPS TEMPLATES
    apply_category_transformation order_by_importance
    generate_negative_prompt.

(** The characters E-acute, small and capital. *)
Definition e_acute : string := str1 (ascii_of_nat 233).
Definition capital_e_acute : string := str1 (ascii_of_nat 201).

(** A prompt parsed with capitals in its values. *)
Definition loud : dict pyval :=
  [ ("subject", PyDict [("type", PyStr "animal");
                        ("profession", PyStr "MASCOT")]);
    ("action", PyDict [("verb", PyStr "Jumping");
                       ("energy_level", PyStr "high")]);
    ("mood", PyDict [("emotion", PyStr "playful")]) ].

(** A one-category store whose trigger keyword is the word cafe written
    with a small e-acute, and a parsed subject that has it in capitals. *)
Definition BISTRO : dict category_rules :=
  [ ("bistro",
     category "Pavement tables" ["awning"] ["food"] ["calm"]
       ["caf" ++ e_acute] ["neon"]) ].

Definition menu : dict pyval :=
  [ ("subject", PyDict [("type", PyStr ("CAF" ++ capital_e_acute))]) ].

(** The skeleton assembled for a chef tasting soup, in the kid_chaos
    style. *)
Definition chef_skeleton : Skeleton :=
  {| sections := [("subject", PyStr "a chef");
                  ("action", PyStr "tasting soup")];
     emphasis := [("subject", 1.0%float)];
     sk_template :=
       {| emphasis_order :=
            ["subject"; "action"; "setting"; "colors"; "effects";
             "style_markers"; "typography"];
          structure := PyDict [("category", PyStr "kid_chaos")] |};
     negative_prompt := "minimalism, muted colors";
     sk_metadata :=
       {| md_category := "kid_chaos";
          estimated_tokens := 4;
          ready_for_synthesis := true;
          user_modifications := None |} |}.

End Sample.

Module SampleParser.

(** Modelled from the spec: [tools/parser.py] is not among the sources.
    Section 4.1, for a prompt in which nothing is recognised: every
    component is present and empty. *)
Definition parse_prompt_components (user_prompt : string) (maps : pyval)
  : dict pyval :=
  [ ("subject", PyDict []); ("action", PyDict []); ("setting", PyDict []);
    ("objects", PyList []); ("colors", PyList []); ("mood", PyDict []) ].

(** Modelled from the spec: [tools/utils.py] is not among the sources.
    Section 4.2: an integer score per component, the floor for a component
    with no extracted data, growing with the populated sub-fields, never
    above 100; the numbers are sample data. *)
Definition calculate_semantic_weights (components : dict pyval) : pyval :=
  PyDict
    (map (fun name =>
            (name,
             PyInt (Z.min 100
                      (10 + 15 * match dict_get name components with
                                 | Some (PyDict d) => Z.of_nat (List.length d)
                                 | Some (PyList l) => Z.of_nat (List.length l)
                                 | _ => 0
                                 end))))
         ["subject"; "action"; "setting"; "objects"; "colors"; "mood"]).

Definition parse_prompt :=
  parse_prompt Sample.TRANSFORMATION_MAPS parse_prompt_components
    calculate_semantic_weights.

End SampleParser.

(** The entry the scorer stores for a category, in closed form. *)
Definition spec_reasons (parsed : dict pyval) (category : string)
    (rules : category_rules) : list string :=
  let subject_type := lookup2 parsed "subject" "type" PyNone in
  let mood := lookup2 parsed "mood" "emotion" PyNone in
  let energy := lookup2 parsed "action" "energy_level" (PyStr "medium") in
  let for_subject :=
    if py_in_strs subject_type (get_list (ideal_subjects rules))
    then ["Subject type '" ++ py_str subject_type
            ++ "' is ideal for this category"]
    else [] in
  let for_mood :=
    if py_in_strs mood (get_list (compatible_moods rules))
    then ["Mood '" ++ py_str mood ++ "' aligns with category aesthetic"]
    else [] in
  let for_energy :=
    if energetic category
       && (py_eq_str energy "high" || py_eq_str energy "extreme")
    then ["High energy matches dynamic category"]
    else if minimalist category && py_eq_str energy "low"
    then ["Low energy suits minimalist aesthetic"]
    else [] in
  List.app for_subject (List.app for_mood for_energy).

Definition spec_entry (parsed : dict pyval) (category : string)
    (rules : category_rules) : score_entry :=
  {| score := spec_score parsed category rules;
     reasons := spec_reasons parsed category rules |}.

(** The [scores] dictionary of the scorer, in declaration order. *)
Definition spec_entries (categories : dict category_rules)
    (parsed : dict pyval) : list (string * score_entry) :=
  map (fun cr => (fst cr, spec_entry parsed (fst cr) (snd cr))) categories.

(** The value [suggest_category] returns on a well-formed input. *)
Definition spec_suggestion (categories : dict category_rules)
    (parsed : dict pyval) (top : string * score_entry)
    (ranked : list (string * score_entry)) : Suggestion :=
  {| primary_suggestion := fst top;
     alternatives := map fst (firstn 2 (skipn 1 ranked));
     scores :=
       map (fun cr => (fst cr, spec_score parsed (fst cr) (snd cr))) categories;
     reasoning :=
       match reasons (snd top) with
       | [] => "General compatibility"
       | _ :: _ => String.concat "; " (reasons (snd top))
       end |}.

(** The emphasis dictionary of a weights mapping, in closed form. *)
Definition spec_emphasis (weights : dict Z) : dict float :=
  map (fun kw => (fst kw, spec_band (snd kw))) weights.

(** The names the loop gives from index [i] on. *)
Fixpoint names_from (i : Z) (sets : list StyleParams) : list string :=
  match sets with
  | [] => []
  | params :: rest =>
      ("Variant " ++ repr_int (i + 1) ++ " ("
         ++ match sp_name params with
            | Some n => n
            | None => EmptyString
            end ++ ")")
        :: names_from (i + 1) rest
  end.

(** An entry made by one run of transform and assemble under its own
    parameters, with the parsed weights. *)
Definition produced (CATEGORIES : dict category_rules)
    (TRANSFORMATION_MAPS : pyval) (TEMPLATES : dict Template)
    (apply_category_transformation :
       dict pyval -> category_rules -> pyval -> StyleParams -> dict pyval)
    (order_by_importance : dict pyval -> pyval -> list string -> dict pyval)
    (generate_negative_prompt : string -> dict category_rules -> string)
    (parsed : dict pyval) (category : string) (weights : pyval) (v : Variant)
  : Prop :=
  exists transformed,
    apply_transformations CATEGORIES TRANSFORMATION_MAPS
      apply_category_transformation parsed category (Some (v_style_params v))
    = Ok transformed /\
    build_prompt_skeleton CATEGORIES TEMPLATES order_by_importance
      generate_negative_prompt transformed category weights
    = Ok (v_skeleton v).

(** An upper-case ASCII letter, the characters [lower] rewrites. *)
Definition is_upper (c : ascii) : bool :=
  let n := nat_of_ascii c in
  Nat.leb 65 n && Nat.leb n 90.

(** An integer or a boolean: the values of the model that the comparison
    [weight > 60] accepts. *)
Definition is_number (v : pyval) : bool :=
  match v with
  | PyInt _ | PyBool _ => true
  | _ => false
  end.

(** The token estimate of a skeleton agrees with its sections. *)
Definition tokens_consistent (sk : Skeleton) : Prop :=
  estimated_tokens (sk_metadata sk) = estimate_tokens (sections sk).

(** The total length of the section texts of a skeleton. *)
Definition section_chars (sk : Skeleton) : Z :=
  Z.of_nat
    (list_sum (map (fun v => String.length (py_str v))
                   (dict_values (sections sk)))).

(** The edit log of a skeleton, empty while the key is absent. *)
Definition edit_log (sk : Skeleton) : list string :=
  match user_modifications (sk_metadata sk) with
  | None => []
  | Some l => l
  end.

(** ** Facts about dictionaries *)

Section DictFacts.
Context {V : Type}.
Implicit Types (d : dict V) (k : string) (v : V).

Lemma dict_get_set_eq k v d : dict_get k (dict_set k v d) = Some v.
Proof.
  induction d as [|[k' v'] d IH]; simpl.
  - now rewrite String.eqb_refl.
  - destruct (String.eqb k' k) eqn:E; simpl; now rewrite E.
Qed.

Lemma dict_get_set_neq k k' v d :
  k <> k' -> dict_get k' (dict_set k v d) = dict_get k' d.
Proof.
  intros N. induction d as [|[k0 v0] d IH]; simpl.
  - apply String.eqb_neq in N. now rewrite N.
  - destruct (String.eqb k0 k) eqn:E; simpl.
    + apply String.eqb_eq in E; subst k0.
      apply String.eqb_neq in N. now rewrite N.
    + now rewrite IH.
Qed.

Lemma dict_get_None k d : dict_get k d = None <-> ~ In k (dict_keys d).
Proof.
  induction d as [|[k' v'] d IH]; simpl.
  - tauto.
  - destruct (String.eqb k' k) eqn:E.
    + apply String.eqb_eq in E. split; [discriminate | tauto].
    + apply String.eqb_neq in E. tauto.
Qed.

Lemma dict_mem_In k d : dict_mem k d = true <-> In k (dict_keys d).
Proof.
  unfold dict_mem. destruct (dict_get k d) eqn:E.
  - split; [intros _ | reflexivity].
    destruct (in_dec string_dec k (dict_keys d)) as [I | I]; [exact I |].
    apply dict_get_None in I. congruence.
  - apply dict_get_None in E. split; [discriminate | tauto].
Qed.

Lemma dict_mem_false k d : dict_mem k d = false <-> ~ In k (dict_keys d).
Proof.
  rewrite <- dict_mem_In. destruct (dict_mem k d); split; congruence.
Qed.

Lemma dict_get_Some_In k v d : dict_get k d = Some v -> In (k, v) d.
Proof.
  induction d as [|[k' v'] d IH]; simpl; [discriminate |].
  destruct (String.eqb k' k) eqn:E.
  - apply String.eqb_eq in E. intros [= ->]. left. now subst.
  - auto.
Qed.

Lemma dict_get_In k v d : dict_wf d -> In (k, v) d -> dict_get k d = Some v.
Proof.
  unfold dict_wf. induction d as [|[k' v'] d IH]; simpl; [tauto |].
  intros W [E | I].
  - injection E as -> ->. now rewrite String.eqb_refl.
  - inversion W as [|? ? N W']; subst.
    destruct (String.eqb k' k) eqn:E.
    + apply String.eqb_eq in E; subst. exfalso. apply N.
      change k with (fst (k, v)). now apply in_map.
    + auto.
Qed.

Lemma dict_keys_set k v d :
  In k (dict_keys d) -> dict_keys (dict_set k v d) = dict_keys d.
Proof.
  induction d as [|[k' v'] d IH]; simpl; [tauto |].
  intros I. destruct (String.eqb k' k) eqn:E; simpl; [reflexivity |].
  apply String.eqb_neq in E. f_equal. apply IH. tauto.
Qed.

Lemma dict_set_fresh k v d :
  ~ In k (dict_keys d) -> dict_set k v d = (d ++ [(k, v)])%list.
Proof.
  induction d as [|[k' v'] d IH]; simpl; [reflexivity |].
  intros N. destruct (String.eqb k' k) eqn:E.
  - apply String.eqb_eq in E. tauto.
  - f_equal. apply IH. tauto.
Qed.

(** Assigning distinct fresh keys one after the other appends them. *)
Lemma dict_assign_fresh (items : list (string * V)) :
  forall d,
    NoDup (map fst items) ->
    (forall k, In k (map fst items) -> ~ In k (dict_keys d)) ->
    fold_left (fun acc kv => dict_set (fst kv) (snd kv) acc) items d
    = (d ++ items)%list.
Proof.
  induction items as [|[k v] items IH]; intros d N F; simpl.
  - now rewrite app_nil_r.
  - inversion N as [|? ? Nk N']; subst.
    rewrite dict_set_fresh by (apply F; now left).
    rewrite IH; [now rewrite <- app_assoc | exact N' |].
    intros k' I. unfold dict_keys. rewrite map_app, in_app_iff. simpl.
    intros [I' | [-> | []]]; [| tauto].
    apply (F k'); [now right | exact I'].
Qed.

Lemma dict_of_items_wf (items : list (string * V)) :
  NoDup (map fst items) -> dict_of_items items = items.
Proof.
  intros N. unfold dict_of_items. now rewrite dict_assign_fresh.
Qed.
End DictFacts.

Lemma distinctb_sound (l : list string) : distinctb l = true -> NoDup l.
Proof.
  induction l as [|x l IH]; simpl; intros H; constructor.
  - apply andb_prop in H as [H _]. intros I.
    assert (existsb (String.eqb x) l = true) as E.
    { apply existsb_exists. exists x. split; [exact I | apply String.eqb_refl]. }
    rewrite E in H. discriminate.
  - apply andb_prop in H as [_ H]. auto.
Qed.

(** ** Facts about the stable descending sort *)

Section SortedFacts.
Context {A : Type} (key : A -> Z).

Let ge_key (a b : A) : Prop := key b <= key a.

Lemma insert_desc_perm x l : Permutation (x :: l) (insert_desc key x l).
Proof.
  induction l as [|y l IH]; simpl; [reflexivity |].
  destruct (key y <=? key x); [reflexivity |].
  rewrite perm_swap. now constructor.
Qed.

Lemma sorted_desc_perm l : Permutation l (sorted_desc key l).
Proof.
  induction l as [|x l IH]; simpl; [constructor |].
  rewrite <- insert_desc_perm. now constructor.
Qed.

Lemma insert_desc_sorted x l :
  StronglySorted ge_key l -> StronglySorted ge_key (insert_desc key x l).
Proof.
  induction l as [|y l IH]; simpl; intros S.
  - repeat constructor.
  - inversion S as [|? ? S' F]; subst.
    destruct (key y <=? key x) eqn:E.
    + apply Z.leb_le in E. constructor; [exact S |].
      constructor; [exact E |].
      eapply Forall_impl; [| exact F]. unfold ge_key. intros; lia.
    + apply Z.leb_gt in E. constructor; [now apply IH |].
      eapply Permutation_Forall; [apply insert_desc_perm |].
      constructor; [unfold ge_key; lia | exact F].
Qed.

(** The ranking is in descending order of key. *)
Lemma sorted_desc_sorted l : StronglySorted ge_key (sorted_desc key l).
Proof.
  induction l as [|x l IH]; simpl; [constructor |].
  now apply insert_desc_sorted.
Qed.

Lemma insert_desc_filter s x l :
  filter (fun y => key y =? s) (insert_desc key x l)
  = filter (fun y => key y =? s) (x :: l).
Proof.
  induction l as [|y l IH]; simpl; [reflexivity |].
  destruct (key y <=? key x) eqn:E; [reflexivity |].
  apply Z.leb_gt in E. simpl in *. rewrite IH.
  destruct (key x =? s) eqn:Ex, (key y =? s) eqn:Ey; try reflexivity.
  apply Z.eqb_eq in Ex, Ey. lia.
Qed.

(** The sort is stable: elements of equal key keep their order. *)
Lemma sorted_desc_stable s l :
  filter (fun y => key y =? s) (sorted_desc key l)
  = filter (fun y => key y =? s) l.
Proof.
  induction l as [|x l IH]; simpl; [reflexivity |].
  rewrite insert_desc_filter. simpl. now rewrite IH.
Qed.

(** The first element of the ranking is the first element of the input
    with the largest key. *)
Lemma sorted_desc_head l :
  l <> [] ->
  exists x rest before after,
    sorted_desc key l = x :: rest /\
    l = (before ++ x :: after)%list /\
    Forall (fun y => key y < key x) before /\
    Forall (fun y => key y <= key x) after.
Proof.
  induction l as [|a l IH]; [congruence | intros _].
  destruct l as [|b l].
  - exists a, [], [], []. simpl. repeat split; constructor.
  - destruct IH as (x & rest & before & after & S & D & B & F);
      [discriminate |].
    change (sorted_desc key (a :: b :: l))
      with (insert_desc key a (sorted_desc key (b :: l))).
    rewrite S, D. simpl.
    destruct (key x <=? key a) eqn:E.
    + apply Z.leb_le in E.
      exists a, (x :: rest), [], (before ++ x :: after)%list.
      repeat split; [constructor |].
      apply Forall_app. split.
      * eapply Forall_impl; [| exact B]. simpl. intros; lia.
      * constructor; [exact E |].
        eapply Forall_impl; [| exact F]. simpl. intros; lia.
    + apply Z.leb_gt in E.
      exists x, (insert_desc key a rest), (a :: before), after.
      repeat split; [constructor; assumption | exact F].
Qed.
End SortedFacts.

(** ** Facts about substrings *)

Lemma prefix_refl (k : string) : String.prefix k k = true.
Proof.
  induction k as [|a k IH]; simpl; [reflexivity |].
  destruct (ascii_dec a a); [exact IH | congruence].
Qed.

Lemma prefix_app_r (k : string) :
  forall s b : string,
    String.prefix k s = true -> String.prefix k (s ++ b) = true.
Proof.
  induction k as [|a k IH]; intros s b.
  - intros _. now destruct (s ++ b).
  - destruct s as [|c s]; simpl; [discriminate |].
    destruct (ascii_dec a c); [apply IH | discriminate].
Qed.

Lemma str_in_refl (k : string) : str_in k k = true.
Proof.
  destruct k as [|a k]; [reflexivity |].
  cbn [str_in]. now rewrite prefix_refl.
Qed.

Lemma str_in_app_l (a k s : string) :
  str_in k s = true -> str_in k (a ++ s) = true.
Proof.
  intros H. induction a as [|c a IH]; simpl; [exact H |].
  rewrite IH. apply orb_true_r.
Qed.

Lemma str_in_app_r (k s b : string) :
  str_in k s = true -> str_in k (s ++ b) = true.
Proof.
  induction s as [|c s IH].
  - destruct k; simpl; [| discriminate].
    intros _. now destruct b.
  - change (String c s ++ b) with (String c (s ++ b)).
    cbn [str_in]. intros H.
    apply orb_true_iff in H as [H | H].
    + apply (prefix_app_r _ (String c s) b) in H.
      change (String c s ++ b) with (String c (s ++ b)) in H.
      rewrite H. reflexivity.
    + rewrite (IH H). apply orb_true_r.
Qed.

Lemma str_in_concat (sep x : string) (l : list string) :
  In x l -> str_in x (String.concat sep l) = true.
Proof.
  induction l as [|y l IH]; [intros [] |].
  destruct l as [|z l].
  - intros [-> | []]. apply str_in_refl.
  - change (String.concat sep (y :: z :: l))
      with (y ++ sep ++ String.concat sep (z :: l)).
    intros [-> | I].
    + apply str_in_app_r, str_in_refl.
    + apply str_in_app_l, str_in_app_l, IH, I.
Qed.

Lemma prefix_split (k : string) :
  forall s : string, String.prefix k s = true -> exists b, s = k ++ b.
Proof.
  induction k as [|a k IH]; intros s P.
  - now exists s.
  - destruct s as [|c s]; [discriminate P |]. simpl in P.
    destruct (ascii_dec a c) as [-> | _]; [| discriminate P].
    destruct (IH _ P) as (b & ->). now exists b.
Qed.

Lemma str_in_split (k s : string) :
  str_in k s = true -> exists a b, s = a ++ k ++ b.
Proof.
  induction s as [|c s IH]; cbn [str_in]; intros I;
    apply orb_true_iff in I as [P | I]; try discriminate.
  - apply prefix_split in P as (b & ->). now exists EmptyString, b.
  - apply prefix_split in P as (b & ->). now exists EmptyString, b.
  - destruct (IH I) as (a & b & ->). now exists (String c a), b.
Qed.

(** The substring test is the existence of a split of the text. *)
Lemma str_in_iff (k s : string) :
  str_in k s = true <-> exists before after, s = before ++ k ++ after.
Proof.
  split; [apply str_in_split |].
  intros (a & b & ->). apply str_in_app_l, str_in_app_r, str_in_refl.
Qed.

(** ** The category scorer *)

Lemma get_nested_wf (parsed : dict pyval) (outer inner : string)
    (default : pyval) :
  dict_or_absent outer parsed ->
  get_nested parsed outer inner default
  = Ok (lookup2 parsed outer inner default).
Proof.
  unfold get_nested, lookup2, dict_or_absent. simpl.
  destruct (dict_get outer parsed) as [[]|]; simpl; try tauto;
    intros _; now destruct (dict_get inner _).
Qed.

(** The keyword loop adds one point per keyword of the list that occurs. *)
Lemma keyword_loop (f : string -> bool) (l : list string) :
  forall s : Z,
    fold_left (fun score keyword => if f keyword then score + 1 else score) l s
    = s + Z.of_nat (List.length (filter f l)).
Proof.
  induction l as [|k l IH]; intros s; simpl.
  - lia.
  - rewrite IH. destruct (f k); simpl List.length; lia.
Qed.

Lemma in_high_extreme (e : pyval) :
  py_in_strs e ["high"; "extreme"]
  = py_eq_str e "high" || py_eq_str e "extreme".
Proof.
  destruct e; simpl; try reflexivity. now rewrite orb_false_r.
Qed.

Lemma in_energetic (category : string) :
  existsb (String.eqb category) ["kid_chaos"; "mascot_theater"]
  = energetic category.
Proof. unfold energetic. simpl. now rewrite orb_false_r. Qed.

Lemma in_minimalist (category : string) :
  existsb (String.eqb category) ["health_halo"; "premium_disruptor"]
  = minimalist category.
Proof. unfold minimalist. simpl. now rewrite orb_false_r. Qed.

(** On a well-formed parsed structure the loop body returns, with the
    score and the reasons of the closed form. *)
Lemma score_category_spec (parsed : dict pyval) (category : string)
    (rules : category_rules) :
  parsed_wf parsed ->
  score_category parsed category rules = Ok (spec_entry parsed category rules).
Proof.
  intros (Hs & Hm & Ha). unfold score_category.
  rewrite (get_nested_wf _ _ _ _ Hs). cbn [bind].
  rewrite (get_nested_wf _ _ _ _ Hm).
  destruct (py_in_strs (lookup2 parsed "subject" "type" PyNone) _) eqn:E1;
    cbn [bind];
    (destruct (py_in_strs (lookup2 parsed "mood" "emotion" PyNone) _) eqn:E2);
    rewrite (get_nested_wf _ _ _ _ Ha); cbn [bind];
    rewrite in_energetic, in_minimalist, in_high_extreme;
    unfold spec_entry, spec_score, spec_reasons, spec_subject_points,
      spec_mood_points, spec_energy_points, spec_keyword_hits;
    rewrite E1, E2;
    set (e := lookup2 parsed "action" "energy_level" (PyStr "medium"));
    (destruct (energetic category
               && (py_eq_str e "high" || py_eq_str e "extreme")) eqn:E3;
     [| destruct (minimalist category && py_eq_str e "low") eqn:E4]);
    rewrite keyword_loop; f_equal; f_equal; simpl; lia.
Qed.

Lemma score_loop_spec (parsed : dict pyval) :
  parsed_wf parsed ->
  forall (items : list (string * category_rules)) (acc : dict score_entry),
    NoDup (map fst items) ->
    (forall k, In k (map fst items) -> ~ In k (dict_keys acc)) ->
    score_loop parsed items acc = Ok (acc ++ spec_entries items parsed)%list.
Proof.
  intros W. induction items as [|[c r] items IH]; intros acc N F; simpl.
  - now rewrite app_nil_r.
  - rewrite (score_category_spec _ _ _ W). cbn [bind].
    inversion N as [|? ? Nc N']; subst.
    rewrite dict_set_fresh by (apply F; now left).
    rewrite IH; [now rewrite <- app_assoc | exact N' |].
    intros k I. unfold dict_keys. rewrite map_app, in_app_iff. simpl.
    intros [I' | [-> | []]]; [| tauto].
    apply (F k); [now right | exact I'].
Qed.

Lemma spec_entries_keys (categories : dict category_rules)
    (parsed : dict pyval) :
  map fst (spec_entries categories parsed) = dict_keys categories.
Proof.
  unfold spec_entries, dict_keys. rewrite map_map. reflexivity.
Qed.

Lemma suggest_category_spec (categories : dict category_rules)
    (parsed : dict pyval) :
  parsed_wf parsed ->
  dict_wf categories ->
  suggest_category categories parsed
  = match rank (spec_entries categories parsed) with
    | [] => Raise IndexError
    | top :: _ =>
        Ok (spec_suggestion categories parsed top
              (rank (spec_entries categories parsed)))
    end.
Proof.
  intros W N. unfold suggest_category.
  rewrite (score_loop_spec _ W); [| exact N | intros k _ []].
  cbn [bind app].
  destruct (rank (spec_entries categories parsed)) as [|top rest] eqn:R;
    [reflexivity |].
  unfold spec_suggestion. f_equal. f_equal.
  rewrite dict_of_items_wf.
  - unfold spec_entries. rewrite map_map. reflexivity.
  - unfold spec_entries. rewrite !map_map. exact N.
Qed.

Lemma rank_nonempty (entries : dict score_entry) :
  entries <> [] -> rank entries <> [].
Proof.
  intros NE E. apply NE. apply Permutation_nil, Permutation_sym.
  rewrite <- E. apply sorted_desc_perm.
Qed.

Lemma dict_get_map_entries {V W : Type} (g : string -> V -> W) (k : string)
    (d : dict V) :
  dict_get k (map (fun cr => (fst cr, g (fst cr) (snd cr))) d)
  = option_map (g k) (dict_get k d).
Proof.
  induction d as [|[k' v] d IH]; simpl; [reflexivity |].
  destruct (String.eqb k' k) eqn:E; [| exact IH].
  apply String.eqb_eq in E. now subst.
Qed.

Lemma suggest_category_returns (categories : dict category_rules)
    (parsed : dict pyval) :
  parsed_wf parsed ->
  dict_wf categories ->
  categories <> [] ->
  exists top rest,
    rank (spec_entries categories parsed) = top :: rest /\
    suggest_category categories parsed
    = Ok (spec_suggestion categories parsed top (top :: rest)).
Proof.
  intros W N NE. rewrite (suggest_category_spec _ _ W N).
  destruct (rank (spec_entries categories parsed)) as [|top rest] eqn:R.
  - exfalso. revert R. apply rank_nonempty.
    destruct categories; [congruence | discriminate].
  - now exists top, rest.
Qed.

(** C1.  For every parsed component set (whose subject, mood and action are
    dictionaries when present) and every category of the Rule Store, the
    score [suggest_category] reports is the sum of four independent
    contributions: 3 when the subject type is one of the ideal subjects, 2
    when the mood's emotion is one of the compatible moods, 2 when the
    category is energetic and the energy level is high or extreme or the
    category is minimalist and the energy level is low, and 1 for each
    trigger keyword that is a substring of the lower-cased rendering of the
    parsed structure, however often it occurs there: the keywords counted
    are those of the list for which the lower-cased rendering splits
    around the keyword, and the counted keywords of a duplicate-free list
    are pairwise distinct. *)
Theorem suggest_score_is_sum_of_four_rules :
  forall (categories : dict category_rules) (parsed : dict pyval),
    parsed_wf parsed ->
    dict_wf categories ->
    categories <> [] ->
    exists r,
      suggest_category categories parsed = Ok r /\
      forall category rules,
        dict_get category categories = Some rules ->
        dict_get category (scores r)
        = Some (spec_subject_points parsed rules
                + spec_mood_points parsed rules
                + spec_energy_points
                    (lookup2 parsed "action" "energy_level" (PyStr "medium"))
                    category
                + Z.of_nat (List.length (spec_keyword_hits parsed rules)))
        /\ (forall keyword,
               In keyword (spec_keyword_hits parsed rules) <->
               In keyword (get_list (trigger_keywords rules)) /\
               exists before after,
                 py_lower (py_str (PyDict parsed))
                 = before ++ keyword ++ after)
        /\ (NoDup (get_list (trigger_keywords rules)) ->
            NoDup (spec_keyword_hits parsed rules)).
Proof.
  intros categories parsed W N NE.
  destruct (suggest_category_returns _ _ W N NE) as (top & rest & _ & E).
  eexists. split; [exact E |].
  intros category rules G. split; [| split].
  - cbn [scores spec_suggestion].
    rewrite (dict_get_map_entries (spec_score parsed)), G. reflexivity.
  - intros keyword. unfold spec_keyword_hits.
    rewrite filter_In, str_in_iff. reflexivity.
  - apply NoDup_filter.
Qed.

Lemma suggest_score_is_sum_of_four_rules_witness :
  parsed_wf Sample.loud /\
  dict_wf Sample.CATEGORIES /\
  parsed_wf Sample.menu /\
  dict_wf Sample.BISTRO /\
  (exists r,
      Sample.suggest_category Sample.loud = Ok r /\
      dict_get "mascot_theater" (scores r) = Some (3 + 2 + 2 + 1) /\
      dict_get "kid_chaos" (scores r) = Some (3 + 2 + 2 + 0) /\
      dict_get "health_halo" (scores r) = Some (0 + 0 + 0 + 0)) /\
  (exists r,
      suggest_category Sample.BISTRO Sample.menu = Ok r /\
      dict_get "bistro" (scores r) = Some (0 + 0 + 0 + 1)).
Proof.
  assert (parsed_wf Sample.loud) as W by (repeat split).
  assert (dict_wf Sample.CATEGORIES) as N
      by (apply distinctb_sound; reflexivity).
  assert (parsed_wf Sample.menu) as W' by (repeat split).
  assert (dict_wf Sample.BISTRO) as N'
      by (apply distinctb_sound; reflexivity).
  do 4 (split; [assumption |]).
  destruct (suggest_score_is_sum_of_four_rules
              Sample.CATEGORIES Sample.loud W N ltac:(discriminate))
    as (r & E & S).
  destruct (suggest_score_is_sum_of_four_rules
              Sample.BISTRO Sample.menu W' N' ltac:(discriminate))
    as (r' & E' & S').
  split.
  - exists r. split; [exact E |].
    destruct (S "mascot_theater" _ eq_refl) as [G1 _].
    destruct (S "kid_chaos" _ eq_refl) as [G2 _].
    destruct (S "health_halo" _ eq_refl) as [G3 _].
    split; [exact G1 |]. split; [exact G2 | exact G3].
  - exists r'. split; [exact E' |].
    destruct (S' "bistro" _ eq_refl) as [G _]. exact G.
Defined.

(** C3.  For every parsed component set, [suggest_category] ranks the
    categories in descending order of score, categories of equal score
    staying in the declaration order of the Rule Store (the sort is stable,
    so the first-declared category with the largest score wins); the
    primary suggestion is the top category, the alternatives are the next
    two, and the reasoning is the winner's reasons joined by a semicolon and
    a space, or the string General compatibility when it has none; a second
    call on the same input gives the same primary, alternatives and
    scores. *)
Theorem suggest_ranking_is_stable_descending :
  forall (categories : dict category_rules) (parsed : dict pyval),
    parsed_wf parsed ->
    dict_wf categories ->
    categories <> [] ->
    exists r entries top rest,
      suggest_category categories parsed = Ok r /\
      (* the scored categories, in declaration order *)
      Forall2 (fun cr ce =>
                 fst ce = fst cr /\
                 score_category parsed (fst cr) (snd cr) = Ok (snd ce))
              categories entries /\
      (* the ranking of them *)
      rank entries = top :: rest /\
      Permutation entries (top :: rest) /\
      StronglySorted (fun a b => score (snd b) <= score (snd a)) (top :: rest) /\
      (forall s,
          filter (fun x => score (snd x) =? s) (top :: rest)
          = filter (fun x => score (snd x) =? s) entries) /\
      (exists before after,
          entries = (before ++ top :: after)%list /\
          Forall (fun x => score (snd x) < score (snd top)) before /\
          Forall (fun x => score (snd x) <= score (snd top)) after) /\
      (* what is returned *)
      primary_suggestion r = fst top /\
      alternatives r = map fst (firstn 2 rest) /\
      reasoning r
      = match reasons (snd top) with
        | [] => "General compatibility"
        | _ :: _ => String.concat "; " (reasons (snd top))
        end /\
      (forall r',
          suggest_category categories parsed = Ok r' ->
          primary_suggestion r' = primary_suggestion r /\
          alternatives r' = alternatives r /\
          scores r' = scores r).
Proof.
  intros categories parsed W N NE.
  destruct (suggest_category_returns _ _ W N NE) as (top & rest & R & E).
  exists (spec_suggestion categories parsed top (top :: rest)),
    (spec_entries categories parsed), top, rest.
  split; [exact E |]. split.
  { unfold spec_entries. clear - W. induction categories as [|[c rl] l IH]; simpl.
    - constructor.
    - constructor; [| exact IH]. simpl. split; [reflexivity |].
      apply score_category_spec. exact W. }
  split; [exact R |].
  split; [rewrite <- R; apply sorted_desc_perm |].
  split; [rewrite <- R; apply (sorted_desc_sorted (fun x => score (snd x))) |].
  split; [intros s; rewrite <- R;
          apply (sorted_desc_stable (fun x => score (snd x))) |].
  split.
  { destruct (sorted_desc_head (fun x => score (snd x))
                (spec_entries categories parsed))
      as (x & rest' & before & after & S & D & B & F).
    - destruct categories; [congruence | discriminate].
    - unfold rank in R. rewrite R in S. injection S as <- <-.
      now exists before, after. }
  do 3 (split; [reflexivity |]).
  intros r' E'. rewrite E in E'. injection E' as <-. repeat split.
Qed.

Lemma suggest_ranking_is_stable_descending_witness :
  parsed_wf Sample.chef /\
  dict_wf Sample.CATEGORIES /\
  exists r,
    Sample.suggest_category Sample.chef = Ok r /\
    primary_suggestion r = "health_halo" /\
    alternatives r = ["premium_disruptor"; "mascot_theater"].
Proof.
  assert (parsed_wf Sample.chef) as W by (repeat split).
  assert (dict_wf Sample.CATEGORIES) as N
      by (apply distinctb_sound; reflexivity).
  split; [exact W |]. split; [exact N |].
  destruct (suggest_ranking_is_stable_descending
              Sample.CATEGORIES Sample.chef W N ltac:(discriminate))
    as (r & entries & top & rest & E & _).
  exists r. split; [exact E |].
  vm_compute in E. injection E as <-. split; reflexivity.
Defined.

(** C10.  For every parsed component set in which [action.energy_level] is
    absent, [suggest_category] reads the energy level as medium; no
    category then receives the energy bonus: the score of every category
    is the sum of its subject, mood and keyword contributions, and neither
    energy reason is recorded. *)
Theorem absent_energy_level_is_medium :
  forall parsed : dict pyval,
    parsed_wf parsed ->
    energy_absent parsed ->
    get_nested parsed "action" "energy_level" (PyStr "medium")
    = Ok (PyStr "medium") /\
    forall (category : string) (rules : category_rules),
      spec_energy_points (PyStr "medium") category = 0 /\
      exists entry,
        score_category parsed category rules = Ok entry /\
        score entry
        = spec_subject_points parsed rules
          + spec_mood_points parsed rules
          + Z.of_nat (List.length (spec_keyword_hits parsed rules)) /\
        ~ In "High energy matches dynamic category" (reasons entry) /\
        ~ In "Low energy suits minimalist aesthetic" (reasons entry).
Proof.
  intros parsed W A.
  assert (lookup2 parsed "action" "energy_level" (PyStr "medium")
          = PyStr "medium") as L.
  { unfold lookup2. destruct A as [-> | (a & -> & ->)]; reflexivity. }
  split.
  - rewrite get_nested_wf by apply W. now rewrite L.
  - intros category rules.
    assert (spec_energy_points (PyStr "medium") category = 0) as Z0.
    { unfold spec_energy_points. simpl.
      now rewrite !andb_false_r. }
    split; [exact Z0 |].
    exists (spec_entry parsed category rules).
    split; [now apply score_category_spec |].
    cbn [score reasons spec_entry]. unfold spec_score, spec_reasons.
    rewrite L, Z0. split; [lia |].
    simpl (py_eq_str _ _). rewrite !andb_false_r. simpl (List.app _ []).
    split; intros I; apply in_app_or in I;
      destruct I as [I | I];
      (destruct (py_in_strs _ _); simpl in I; [| tauto]);
      destruct I as [I | []]; discriminate I.
Qed.

Lemma absent_energy_level_is_medium_witness :
  parsed_wf Sample.still_life /\
  energy_absent Sample.still_life /\
  exists entry,
    score_category Sample.still_life "health_halo"
      (Sample.category "Minimalist natural photography, muted tones"
         ["natural light"; "muted tones"]
         ["food"; "plant"] ["calm"; "serene"] ["organic"; "natural"]
         ["neon"; "cartoon"]) = Ok entry /\
    score entry = 3 + 2 + 0.
Proof.
  assert (parsed_wf Sample.still_life) as W by (repeat split).
  assert (energy_absent Sample.still_life) as A.
  { right. exists []. split; reflexivity. }
  split; [exact W |]. split; [exact A |].
  destruct (absent_energy_level_is_medium Sample.still_life W A) as [_ S].
  destruct (S "health_halo"
              (Sample.category "Minimalist natural photography, muted tones"
                 ["natural light"; "muted tones"]
                 ["food"; "plant"] ["calm"; "serene"] ["organic"; "natural"]
                 ["neon"; "cartoon"]))
    as (_ & entry & E & Sc & _).
  exists entry. split; [exact E |]. exact Sc.
Defined.

(** ** The skeleton assembler *)

Lemma emphasis_loop_spec (weights : dict Z) :
  forall acc : dict float,
    NoDup (map fst weights) ->
    (forall k, In k (map fst weights) -> ~ In k (dict_keys acc)) ->
    emphasis_loop (map (fun kw => (fst kw, PyInt (snd kw))) weights) acc
    = Ok (acc ++ spec_emphasis weights)%list.
Proof.
  induction weights as [|[c w] weights IH]; intros acc N F; simpl.
  - now rewrite app_nil_r.
  - inversion N as [|? ? Nc N']; subst.
    assert ((if w >? 60 then dict_set c 1.3%float acc
             else if w >? 40 then dict_set c 1.15%float acc
             else if w >? 20 then dict_set c 1.0%float acc
             else dict_set c 0.85%float acc)
            = (acc ++ [(c, spec_band w)])%list) as ->.
    { unfold spec_band. rewrite !Z.gtb_ltb.
      destruct (60 <? w), (40 <? w), (20 <? w);
        apply dict_set_fresh, F; now left. }
    rewrite IH; [now rewrite <- app_assoc | exact N' |].
    intros k I. unfold dict_keys. rewrite map_app, in_app_iff. simpl.
    intros [I' | [-> | []]]; [| tauto].
    apply (F k); [now right | exact I'].
Qed.

Section Assembler.
Variable CATEGORIES : dict category_rules.
Variable TEMPLATES : dict Template.
Variable order_by_importance :
  dict pyval -> pyval -> list string -> dict pyval.
Variable generate_negative_prompt : string -> dict category_rules -> string.

Let assemble :=
  build_prompt_skeleton CATEGORIES TEMPLATES order_by_importance
    generate_negative_prompt.

(** With a template for the category and integer weights, the assembler
    returns this skeleton. *)
Lemma build_prompt_skeleton_spec (transformed : dict pyval)
    (category : string) (weights : dict Z) (template : Template) :
  dict_wf weights ->
  dict_get category TEMPLATES = Some template ->
  assemble transformed category (weights_mapping weights)
  = let ordered :=
      order_by_importance transformed (weights_mapping weights)
        (emphasis_order template) in
    Ok {| sections := ordered;
          emphasis := spec_emphasis weights;
          sk_template := template;
          negative_prompt := generate_negative_prompt category CATEGORIES;
          sk_metadata :=
            {| md_category := category;
               estimated_tokens := estimate_tokens ordered;
               ready_for_synthesis := true;
               user_modifications := None |} |}.
Proof.
  intros W T. unfold assemble, build_prompt_skeleton. rewrite T.
  cbn [weights_mapping py_items bind].
  rewrite emphasis_loop_spec; [reflexivity | exact W | intros k _ []].
Qed.

Lemma build_prompt_skeleton_no_template (transformed : dict pyval)
    (category : string) (weights : pyval) :
  dict_get category TEMPLATES = None ->
  assemble transformed category weights = Raise (KeyError category).
Proof.
  intros T. unfold assemble, build_prompt_skeleton. now rewrite T.
Qed.

(** Whatever is returned carries no [user_modifications] key. *)
Lemma build_prompt_skeleton_metadata (transformed : dict pyval)
    (category : string) (weights : pyval) (sk : Skeleton) :
  assemble transformed category weights = Ok sk ->
  user_modifications (sk_metadata sk) = None /\
  ready_for_synthesis (sk_metadata sk) = true /\
  md_category (sk_metadata sk) = category /\
  estimated_tokens (sk_metadata sk) = estimate_tokens (sections sk).
Proof.
  unfold assemble, build_prompt_skeleton.
  destruct (dict_get category TEMPLATES); [| discriminate].
  destruct (py_items weights); [| discriminate]. cbn [bind].
  destruct (emphasis_loop _ _); [| discriminate]. cbn [bind].
  intros [= <-]. repeat split.
Qed.
End Assembler.

Lemma spec_band_values (w : Z) :
  In (spec_band w) [0.85; 1.0; 1.15; 1.3]%float.
Proof.
  unfold spec_band.
  destruct (60 <? w), (40 <? w), (20 <? w); simpl; tauto.
Qed.

(** C2.  For every weights mapping passed to [build_prompt_skeleton], the
    emphasis multiplier of each component is 1.3 when its weight is above
    60, 1.15 when it is above 40 and at most 60, 1.0 when it is above 20 and
    at most 40, and 0.85 when it is at most 20; a weight of exactly 60 gives
    1.15 and a weight of exactly 40 gives 1.0. *)
Theorem emphasis_bands :
  forall (CATEGORIES : dict category_rules) (TEMPLATES : dict Template)
         (order_by_importance : dict pyval -> pyval -> list string -> dict pyval)
         (generate_negative_prompt : string -> dict category_rules -> string)
         (transformed : dict pyval) (category : string) (weights : dict Z)
         (template : Template),
    dict_wf weights ->
    dict_get category TEMPLATES = Some template ->
    exists sk,
      build_prompt_skeleton CATEGORIES TEMPLATES order_by_importance
        generate_negative_prompt transformed category (weights_mapping weights)
      = Ok sk /\
      forall (component : string) (weight : Z),
        dict_get component weights = Some weight ->
        (60 < weight -> dict_get component (emphasis sk) = Some 1.3%float) /\
        (40 < weight <= 60 ->
         dict_get component (emphasis sk) = Some 1.15%float) /\
        (20 < weight <= 40 ->
         dict_get component (emphasis sk) = Some 1.0%float) /\
        (weight <= 20 -> dict_get component (emphasis sk) = Some 0.85%float) /\
        (weight = 60 -> dict_get component (emphasis sk) = Some 1.15%float) /\
        (weight = 40 -> dict_get component (emphasis sk) = Some 1.0%float).
Proof.
  intros C T o g transformed category weights template W G.
  eexists. split; [apply (build_prompt_skeleton_spec C T o g); eassumption |].
  intros component weight L. cbn [emphasis]. unfold spec_emphasis.
  rewrite (dict_get_map_entries (fun _ => spec_band)), L. simpl.
  unfold spec_band.
  repeat split; intros H;
    destruct (60 <? weight) eqn:E1, (40 <? weight) eqn:E2,
             (20 <? weight) eqn:E3;
    try reflexivity;
    rewrite ?Z.ltb_lt, ?Z.ltb_ge in *; lia.
Qed.

Lemma emphasis_bands_witness :
  dict_wf [("subject", 60); ("action", 40); ("setting", 61); ("mood", 20)] /\
  exists sk,
    Sample.build_prompt_skeleton [("subject", PyStr "a chef")] "kid_chaos"
      (weights_mapping
         [("subject", 60); ("action", 40); ("setting", 61); ("mood", 20)])
    = Ok sk /\
    dict_get "subject" (emphasis sk) = Some 1.15%float /\
    dict_get "action" (emphasis sk) = Some 1.0%float /\
    dict_get "setting" (emphasis sk) = Some 1.3%float /\
    dict_get "mood" (emphasis sk) = Some 0.85%float.
Proof.
  assert (dict_wf [("subject", 60); ("action", 40); ("setting", 61);
                   ("mood", 20)]) as W
      by (apply distinctb_sound; reflexivity).
  split; [exact W |].
  destruct (emphasis_bands Sample.CATEGORIES Sample.TEMPLATES
              Sample.order_by_importance Sample.generate_negative_prompt
              [("subject", PyStr "a chef")] "kid_chaos" _ _ W eq_refl)
    as (sk & E & B).
  exists sk. split; [exact E |].
  repeat split.
  - apply (B "subject" 60 eq_refl). lia.
  - apply (B "action" 40 eq_refl). lia.
  - apply (B "setting" 61 eq_refl). lia.
  - apply (B "mood" 20 eq_refl). lia.
Defined.

(** C9.  For every call of [build_prompt_skeleton] that returns, the
    emphasis mapping has exactly the keys of the [semantic_weights]
    argument, in the same order, and every value is one of 0.85, 1.0, 1.15
    and 1.3; a key of the emphasis mapping may name a component that has no
    entry in the assembled sections. *)
Theorem emphasis_keys_are_weight_keys :
  (forall (CATEGORIES : dict category_rules) (TEMPLATES : dict Template)
          (order_by_importance :
             dict pyval -> pyval -> list string -> dict pyval)
          (generate_negative_prompt : string -> dict category_rules -> string)
          (transformed : dict pyval) (category : string) (weights : dict Z)
          (template : Template),
      dict_wf weights ->
      dict_get category TEMPLATES = Some template ->
      exists sk,
        build_prompt_skeleton CATEGORIES TEMPLATES order_by_importance
          generate_negative_prompt transformed category
          (weights_mapping weights)
        = Ok sk /\
        dict_keys (emphasis sk) = dict_keys weights /\
        Forall (fun v => In v [0.85; 1.0; 1.15; 1.3]%float)
               (dict_values (emphasis sk))) /\
  (exists sk,
      Sample.build_prompt_skeleton [("subject", PyStr "a chef")] "kid_chaos"
        (weights_mapping [("subject", 35); ("mood", 10)])
      = Ok sk /\
      In "mood" (dict_keys (emphasis sk)) /\
      ~ In "mood" (dict_keys (sections sk))).
Proof.
  split.
  - intros C T o g transformed category weights template W G.
    eexists. split; [apply (build_prompt_skeleton_spec C T o g); eassumption |].
    cbn [emphasis]. unfold spec_emphasis, dict_keys, dict_values.
    rewrite !map_map. split; [reflexivity |].
    apply Forall_map, Forall_forall. intros kw _. apply spec_band_values.
  - eexists. split; [vm_compute; reflexivity |]. split.
    + simpl. tauto.
    + simpl. intros [H | []]. discriminate H.
Qed.

Lemma emphasis_keys_are_weight_keys_witness :
  dict_wf [("subject", 35); ("mood", 10)] /\
  exists sk,
    Sample.build_prompt_skeleton [("subject", PyStr "a chef")] "kid_chaos"
      (weights_mapping [("subject", 35); ("mood", 10)])
    = Ok sk /\
    dict_keys (emphasis sk) = ["subject"; "mood"].
Proof.
  assert (dict_wf [("subject", 35); ("mood", 10)]) as W
      by (apply distinctb_sound; reflexivity).
  split; [exact W |].
  destruct (proj1 emphasis_keys_are_weight_keys
              Sample.CATEGORIES Sample.TEMPLATES
              Sample.order_by_importance Sample.generate_negative_prompt
              [("subject", PyStr "a chef")] "kid_chaos" _ _ W eq_refl)
    as (sk & E & K & _).
  exists sk. split; [exact E | exact K].
Defined.

(** ** The refiner *)

Lemma refine_component_unknown (sk : Skeleton) (name value : string) :
  ~ In name (dict_keys (sections sk)) ->
  refine_component sk name value
  = (Raise (ValueError
              ("Unknown component: " ++ name ++ ". Available: "
                 ++ py_repr (PyList (map PyStr (dict_keys (sections sk)))))),
     sk).
Proof.
  intros N. unfold refine_component.
  apply dict_mem_false in N. now rewrite N.
Qed.

Lemma refine_component_known (sk : Skeleton) (name value : string) :
  In name (dict_keys (sections sk)) ->
  refine_component sk name value
  = (Ok tt,
     {| sections := dict_set name (PyStr value) (sections sk);
        emphasis := emphasis sk;
        sk_template := sk_template sk;
        negative_prompt := negative_prompt sk;
        sk_metadata :=
          {| md_category := md_category (sk_metadata sk);
             estimated_tokens :=
               estimate_tokens (dict_set name (PyStr value) (sections sk));
             ready_for_synthesis := ready_for_synthesis (sk_metadata sk);
             user_modifications :=
               Some (append
                       match user_modifications (sk_metadata sk) with
                       | None => []
                       | Some l => l
                       end name) |} |}).
Proof.
  intros I. unfold refine_component.
  apply dict_mem_In in I. now rewrite I.
Qed.

(** C8 as stated fails: the metadata of an assembled skeleton has no
    [user_modifications] entry, so it is not an empty list there. *)
Lemma assembled_skeleton_lacks_user_modifications :
  ~ (forall (transformed : dict pyval) (category : string) (weights : pyval)
            (sk : Skeleton),
        Sample.build_prompt_skeleton transformed category weights = Ok sk ->
        user_modifications (sk_metadata sk) = Some []).
Proof.
  intros H.
  specialize (H [("subject", PyStr "a chef")] "kid_chaos"
                (weights_mapping [("subject", 35)]) _ eq_refl).
  discriminate H.
Qed.

(** C8, amended.  Every skeleton returned by [build_prompt_skeleton] has no
    [user_modifications] entry in its metadata; refining zero components
    leaves the skeleton as it is, so its sections, negative prompt and
    emphasis are unchanged and [user_modifications] is still absent; the
    first successful refinement creates the list, holding the refined
    component's name. *)
Theorem assembled_skeleton_has_no_modifications :
  forall (CATEGORIES : dict category_rules) (TEMPLATES : dict Template)
         (order_by_importance : dict pyval -> pyval -> list string -> dict pyval)
         (generate_negative_prompt : string -> dict category_rules -> string)
         (transformed : dict pyval) (category : string) (weights : pyval)
         (sk : Skeleton),
    build_prompt_skeleton CATEGORIES TEMPLATES order_by_importance
      generate_negative_prompt transformed category weights = Ok sk ->
    user_modifications (sk_metadata sk) = None /\
    (exists sk',
        refine_all [] sk = (Ok tt, sk') /\
        sections sk' = sections sk /\
        negative_prompt sk' = negative_prompt sk /\
        emphasis sk' = emphasis sk /\
        user_modifications (sk_metadata sk') = None) /\
    (forall (name value : string) (sk' : Skeleton),
        refine_component sk name value = (Ok tt, sk') ->
        user_modifications (sk_metadata sk') = Some [name]).
Proof.
  intros C T o g transformed category weights sk E.
  destruct (build_prompt_skeleton_metadata C T o g _ _ _ _ E) as (U & _).
  split; [exact U |]. split.
  - exists sk. simpl. now repeat split.
  - intros name value sk'. unfold refine_component.
    destruct (dict_mem name (sections sk)); simpl; [| discriminate].
    intros [= <-]. simpl. now rewrite U.
Qed.

Lemma assembled_skeleton_has_no_modifications_witness :
  exists sk,
    Sample.build_prompt_skeleton [("subject", PyStr "a chef")] "kid_chaos"
      (weights_mapping [("subject", 35)]) = Ok sk /\
    user_modifications (sk_metadata sk) = None /\
    user_modifications
      (sk_metadata (snd (refine_component sk "subject" "a baker")))
    = Some ["subject"].
Proof.
  eexists. split; [reflexivity |].
  destruct (assembled_skeleton_has_no_modifications
              Sample.CATEGORIES Sample.TEMPLATES
              Sample.order_by_importance Sample.generate_negative_prompt
              [("subject", PyStr "a chef")] "kid_chaos"
              (weights_mapping [("subject", 35)]) _ eq_refl)
    as (U & _ & R).
  split; [exact U |].
  apply (R "subject" "a baker"). reflexivity.
Defined.

Lemma py_sum_lengths (l : list string) :
  py_sum (map py_len l) = Z.of_nat (list_sum (map String.length l)).
Proof.
  unfold py_sum.
  assert (forall a, fold_left Z.add (map py_len l) a
                    = a + Z.of_nat (list_sum (map String.length l))) as G.
  { induction l as [|s l IH]; intros a; simpl.
    - lia.
    - rewrite IH. unfold py_len. lia. }
  apply G.
Qed.

Lemma estimate_tokens_sum (sections : dict pyval) :
  estimate_tokens sections
  = Z.of_nat
      (list_sum (map (fun v => String.length (py_str v)) (dict_values sections)))
    / 4.
Proof.
  unfold estimate_tokens.
  rewrite <- (map_map py_str py_len), py_sum_lengths, map_map. reflexivity.
Qed.

(** C5.  For every skeleton and every component name that is not a key of
    its sections, [refine_component] raises the unknown-component error,
    whose message ends with the list of the valid component names (so each
    valid name occurs in it), and the skeleton is left as it was. *)
Theorem refine_unknown_component_fails_unchanged :
  forall (sk : Skeleton) (component_name new_value : string),
    ~ In component_name (dict_keys (sections sk)) ->
    exists msg,
      refine_component sk component_name new_value
      = (Raise (ValueError msg), sk) /\
      msg = "Unknown component: " ++ component_name ++ ". Available: "
              ++ py_repr (PyList (map PyStr (dict_keys (sections sk)))) /\
      forall valid,
        In valid (dict_keys (sections sk)) ->
        str_in (repr_str valid) msg = true.
Proof.
  intros sk name value N. eexists.
  split; [now apply refine_component_unknown |].
  split; [reflexivity |].
  intros valid I.
  do 3 apply str_in_app_l. cbn [py_repr].
  apply str_in_app_l, str_in_app_r, str_in_concat.
  rewrite map_map. cbn [py_repr].
  now apply (in_map repr_str).
Qed.

Lemma refine_unknown_component_fails_unchanged_witness :
  Sample.build_prompt_skeleton
    [("subject", PyStr "a chef"); ("action", PyStr "tasting soup")]
    "kid_chaos" (weights_mapping [("subject", 35)])
  = Ok Sample.chef_skeleton /\
  ~ In "typography" (dict_keys (sections Sample.chef_skeleton)) /\
  refine_component Sample.chef_skeleton "typography" "bubbly"
  = (Raise (ValueError
              "Unknown component: typography. Available: ['subject', 'action']"),
     Sample.chef_skeleton).
Proof.
  split; [reflexivity |].
  assert (~ In "typography" (dict_keys (sections Sample.chef_skeleton))) as N.
  { simpl. intros [H | [H | []]]; discriminate H. }
  split; [exact N |].
  destruct (refine_unknown_component_fails_unchanged
              Sample.chef_skeleton "typography" "bubbly" N)
    as (msg & E & -> & _).
  exact E.
Defined.

(** C6.  For every skeleton and every component name that is a key of its
    sections, [refine_component] overwrites that section and no other with
    the new value, appends the name to [user_modifications] (again on a
    repeated edit of the same section), and sets [estimated_tokens] to the
    sum of the lengths of the texts of all current sections, divided by 4
    and rounded down; emphasis and template are left as they were. *)
Theorem refine_known_component_updates :
  forall (sk : Skeleton) (component_name new_value : string),
    In component_name (dict_keys (sections sk)) ->
    exists sk',
      refine_component sk component_name new_value = (Ok tt, sk') /\
      dict_get component_name (sections sk') = Some (PyStr new_value) /\
      (forall other,
          other <> component_name ->
          dict_get other (sections sk') = dict_get other (sections sk)) /\
      dict_keys (sections sk') = dict_keys (sections sk) /\
      user_modifications (sk_metadata sk')
      = Some (match user_modifications (sk_metadata sk) with
              | None => []
              | Some l => l
              end ++ [component_name])%list /\
      estimated_tokens (sk_metadata sk')
      = Z.of_nat
          (list_sum (map (fun v => String.length (py_str v))
                         (dict_values (sections sk'))))
        / 4 /\
      emphasis sk' = emphasis sk /\
      sk_template sk' = sk_template sk /\
      forall again : string,
      exists sk'',
        refine_component sk' component_name again = (Ok tt, sk'') /\
        user_modifications (sk_metadata sk'')
        = Some (match user_modifications (sk_metadata sk) with
                | None => []
                | Some l => l
                end ++ [component_name; component_name])%list.
Proof.
  intros sk name value I. eexists.
  split; [now apply refine_component_known |].
  cbn [sections sk_metadata user_modifications estimated_tokens emphasis
       sk_template].
  split; [apply dict_get_set_eq |].
  split; [intros other N; apply dict_get_set_neq; congruence |].
  split; [now apply dict_keys_set |].
  split; [reflexivity |].
  split; [apply estimate_tokens_sum |].
  do 2 (split; [reflexivity |]).
  intros again. eexists. split.
  - apply refine_component_known. cbn [sections].
    rewrite dict_keys_set; assumption.
  - cbn [sk_metadata user_modifications]. unfold append.
    now rewrite <- app_assoc.
Qed.

Lemma refine_known_component_updates_witness :
  In "action" (dict_keys (sections Sample.chef_skeleton)) /\
  (exists sk',
      refine_component Sample.chef_skeleton "action" "juggling"
      = (Ok tt, sk') /\
      sections sk'
      = [("subject", PyStr "a chef"); ("action", PyStr "juggling")] /\
      user_modifications (sk_metadata sk') = Some ["action"] /\
      estimated_tokens (sk_metadata sk') = 3) /\
  (exists sk',
      refine_component Sample.chef_skeleton "action"
        (Sample.e_acute ++ Sample.e_acute ++ Sample.e_acute ++ Sample.e_acute)
      = (Ok tt, sk') /\
      estimated_tokens (sk_metadata sk') = (6 + 4) / 4 /\
      estimated_tokens (sk_metadata sk') = 2).
Proof.
  assert (In "action" (dict_keys (sections Sample.chef_skeleton))) as I
      by (simpl; tauto).
  split; [exact I |]. split.
  - destruct (refine_known_component_updates
                Sample.chef_skeleton "action" "juggling" I)
      as (sk' & E & _).
    exists sk'. split; [exact E |].
    vm_compute in E. injection E as <-. repeat split.
  - destruct (refine_known_component_updates
                Sample.chef_skeleton "action"
                (Sample.e_acute ++ Sample.e_acute ++ Sample.e_acute
                   ++ Sample.e_acute) I)
      as (sk' & E & _ & _ & _ & _ & T & _).
    exists sk'. split; [exact E |].
    vm_compute in E. injection E as <-. split; reflexivity.
Defined.

(** ** The transformation engine *)

Lemma apply_transformations_unknown (CATEGORIES : dict category_rules)
    (TRANSFORMATION_MAPS : pyval)
    (apply_category_transformation :
       dict pyval -> category_rules -> pyval -> StyleParams -> dict pyval)
    (parsed : dict pyval) (category : string) (params : option StyleParams) :
  ~ In category (dict_keys CATEGORIES) ->
  apply_transformations CATEGORIES TRANSFORMATION_MAPS
    apply_category_transformation parsed category params
  = Raise (ValueError ("Unknown category: " ++ category)).
Proof.
  intros N. unfold apply_transformations.
  apply dict_get_None in N. now rewrite N.
Qed.

(** C4, at an unknown category.  [apply_transformations] raises the
    unknown-category error and returns nothing, but its message names the
    offending identifier only: none of the valid category identifiers
    occurs in it, whereas [get_category_rules] lists them for the same
    identifier. *)
Theorem unknown_category_error_omits_valid_ids :
  Sample.apply_transformations Sample.chef "bogus" None
  = Raise (ValueError "Unknown category: bogus") /\
  Forall (fun id => str_in id "Unknown category: bogus" = false)
         (dict_keys Sample.CATEGORIES) /\
  Sample.get_category_rules "bogus"
  = Raise (ValueError
             ("Unknown category: bogus. Available: "
                ++ "['mascot_theater', 'health_halo', 'nostalgia_revival', "
                ++ "'premium_disruptor', 'kid_chaos', 'transparent_honest', "
                ++ "'adventure_fantasy']")).
Proof.
  split; [reflexivity |]. split; [| reflexivity].
  repeat constructor.
Qed.

(** ** The variant generator *)

Lemma names_from_firstn (n : nat) :
  forall (i : Z) (sets : list StyleParams),
    names_from i (firstn n sets) = firstn n (names_from i sets).
Proof.
  induction n as [|n IH]; intros i [|p sets]; simpl; try reflexivity.
  now rewrite IH.
Qed.

Lemma param_sets_named : Forall (fun p => sp_name p <> None) param_sets.
Proof. repeat constructor; discriminate. Qed.

Lemma Forall_firstn_of {A : Type} (P : A -> Prop) (n : nat) (l : list A) :
  Forall P l -> Forall P (firstn n l).
Proof.
  intros F. rewrite <- (firstn_skipn n l) in F.
  now apply Forall_app in F.
Qed.

Section Variants.
Variable CATEGORIES : dict category_rules.
Variable TRANSFORMATION_MAPS : pyval.
Variable TEMPLATES : dict Template.
Variable apply_category_transformation :
  dict pyval -> category_rules -> pyval -> StyleParams -> dict pyval.
Variable order_by_importance :
  dict pyval -> pyval -> list string -> dict pyval.
Variable generate_negative_prompt : string -> dict category_rules -> string.

Variables (parsed : dict pyval) (category : string).
Variables (rules : category_rules) (template : Template) (weights : dict Z).
Hypothesis known : dict_get category CATEGORIES = Some rules.
Hypothesis templated : dict_get category TEMPLATES = Some template.
Hypothesis weighted :
  dict_get "semantic_weights" parsed = Some (weights_mapping weights).
Hypothesis weights_wf : dict_wf weights.

Lemma variants_loop_spec (sets : list StyleParams) :
  forall (i : Z) (acc : list Variant),
    Forall (fun p => sp_name p <> None) sets ->
    exists vs,
      variants_loop CATEGORIES TRANSFORMATION_MAPS TEMPLATES
        apply_category_transformation order_by_importance
        generate_negative_prompt parsed category i sets acc
      = Ok (acc ++ vs)%list /\
      map v_style_params vs = sets /\
      map v_name vs = names_from i sets /\
      Forall (produced CATEGORIES TRANSFORMATION_MAPS TEMPLATES
                apply_category_transformation order_by_importance
                generate_negative_prompt parsed category
                (weights_mapping weights)) vs.
Proof.
  induction sets as [|p sets IH]; intros i acc F.
  - exists []. simpl. rewrite app_nil_r. repeat split. constructor.
  - inversion F as [|? ? Np F']; subst.
    destruct (sp_name p) as [n|] eqn:Nm; [| congruence].
    pose proof (build_prompt_skeleton_spec CATEGORIES TEMPLATES
                  order_by_importance generate_negative_prompt
                  (apply_category_transformation parsed rules
                     TRANSFORMATION_MAPS p)
                  category weights template weights_wf templated) as B.
    cbv zeta in B.
    set (sk := {| sections := _ |}) in B.
    set (v := {| v_name := "Variant " ++ repr_int (i + 1) ++ " (" ++ n ++ ")";
                 v_style_params := p;
                 v_skeleton := sk |}).
    destruct (IH (i + 1) (append acc v) F') as (vs & E & S & Nms & P).
    exists (v :: vs).
    split; [| split; [| split]].
    + cbn [variants_loop]. unfold apply_transformations. rewrite known.
      cbn [bind]. unfold dict_item. rewrite weighted. cbn [bind].
      rewrite B. cbn [bind]. rewrite Nm. cbn [bind].
      fold v. rewrite E. unfold append. now rewrite <- app_assoc.
    + simpl. now rewrite S.
    + cbn [map names_from v_name v]. rewrite Nm, Nms. reflexivity.
    + constructor; [| exact P].
      exists (apply_category_transformation parsed rules
                TRANSFORMATION_MAPS p).
      split.
      * unfold apply_transformations. now rewrite known.
      * exact B.
Qed.
End Variants.

(** C7.  For every parsed component set and category, [generate_variants]
    with a count outside 1..5 raises the range error, whose message states
    the range; with a count in 1..5, a category of the Rule Store that has a
    template, and integer [semantic_weights] in the parsed set, it returns
    exactly [count] entries, whose parameters are the first [count] presets
    of the table Subtle, Balanced, Intense, Vintage, Dramatic, the i-th
    one named Variant i followed by the preset's name in brackets, each
    made by its own run of transform and assemble with the parsed
    weights. *)
Theorem variants_count_order_and_names :
  forall (CATEGORIES : dict category_rules) (TRANSFORMATION_MAPS : pyval)
         (TEMPLATES : dict Template)
         (apply_category_transformation :
            dict pyval -> category_rules -> pyval -> StyleParams -> dict pyval)
         (order_by_importance : dict pyval -> pyval -> list string -> dict pyval)
         (generate_negative_prompt : string -> dict category_rules -> string)
         (parsed : dict pyval) (category : string) (count : Z),
    (count < 1 \/ 5 < count ->
     generate_variants CATEGORIES TRANSFORMATION_MAPS TEMPLATES
       apply_category_transformation order_by_importance
       generate_negative_prompt parsed category count
     = Raise (ValueError "Count must be between 1 and 5")) /\
    (1 <= count <= 5 ->
     forall (rules : category_rules) (template : Template) (weights : dict Z),
       dict_get category CATEGORIES = Some rules ->
       dict_get category TEMPLATES = Some template ->
       dict_get "semantic_weights" parsed = Some (weights_mapping weights) ->
       dict_wf weights ->
       exists vs,
         generate_variants CATEGORIES TRANSFORMATION_MAPS TEMPLATES
           apply_category_transformation order_by_importance
           generate_negative_prompt parsed category count
         = Ok vs /\
         Z.of_nat (List.length vs) = count /\
         map v_name vs = firstn (Z.to_nat count) variant_names /\
         map v_style_params vs = firstn (Z.to_nat count) param_sets /\
         Forall (produced CATEGORIES TRANSFORMATION_MAPS TEMPLATES
                   apply_category_transformation order_by_importance
                   generate_negative_prompt parsed category
                   (weights_mapping weights)) vs).
Proof.
  intros C M T act obi gnp parsed category count. split.
  - intros R. unfold generate_variants.
    assert ((count <? 1) || (count >? 5) = true) as ->; [| reflexivity].
    rewrite Z.gtb_ltb. apply orb_true_iff.
    rewrite !Z.ltb_lt. exact R.
  - intros R rules template weights K Tm Wt Wf. unfold generate_variants.
    assert ((count <? 1) || (count >? 5) = false) as ->.
    { rewrite Z.gtb_ltb. apply orb_false_iff.
      rewrite !Z.ltb_ge. lia. }
    destruct (variants_loop_spec C M T act obi gnp parsed category
                rules template weights K Tm Wt Wf
                (firstn (Z.to_nat count) param_sets) 0 []
                (Forall_firstn_of _ _ _ param_sets_named))
      as (vs & E & S & Nms & P).
    exists vs. split; [exact E |].
    split; [| split; [| split]].
    + rewrite <- (length_map v_style_params), S, length_firstn.
      change (List.length param_sets) with 5%nat. lia.
    + rewrite Nms, names_from_firstn. reflexivity.
    + exact S.
    + exact P.
Qed.

Lemma variants_count_order_and_names_witness :
  (1 <= 3 <= 5) /\
  dict_wf [("subject", 35); ("action", 30); ("setting", 25); ("mood", 10)] /\
  (exists vs,
      Sample.generate_variants Sample.chef "kid_chaos" 3 = Ok vs /\
      map v_name vs
      = ["Variant 1 (Subtle)"; "Variant 2 (Balanced)"; "Variant 3 (Intense)"]) /\
  Sample.generate_variants Sample.chef "kid_chaos" 6
  = Raise (ValueError "Count must be between 1 and 5").
Proof.
  assert (1 <= 3 <= 5) as R by lia.
  assert (dict_wf [("subject", 35); ("action", 30); ("setting", 25);
                   ("mood", 10)]) as W
      by (apply distinctb_sound; reflexivity).
  split; [exact R |]. split; [exact W |].
  pose proof (variants_count_order_and_names
                Sample.CATEGORIES Sample.TRANSFORMATION_MAPS Sample.TEMPLATES
                Sample.apply_category_transformation
                Sample.order_by_importance Sample.generate_negative_prompt
                Sample.chef "kid_chaos") as V.
  split.
  - destruct (proj2 (V 3) R _ _ _ eq_refl eq_refl eq_refl W)
      as (vs & E & _ & Nm & _).
    exists vs. split; [exact E | exact Nm].
  - apply (proj1 (V 6)). right. lia.
Defined.

(** * Further properties of the tools *)

(** ** When the scorer returns *)

Lemma dict_or_absent_dec (k : string) (parsed : dict pyval) :
  {dict_or_absent k parsed} + {~ dict_or_absent k parsed}.
Proof.
  unfold dict_or_absent.
  destruct (dict_get k parsed) as [[]|];
    solve [left; exact I | right; intros []].
Qed.

Lemma parsed_wf_dec (parsed : dict pyval) :
  {parsed_wf parsed} + {~ parsed_wf parsed}.
Proof.
  unfold parsed_wf.
  destruct (dict_or_absent_dec "subject" parsed);
    destruct (dict_or_absent_dec "mood" parsed);
    destruct (dict_or_absent_dec "action" parsed);
    solve [left; tauto | right; tauto].
Qed.

Lemma get_nested_bad (parsed : dict pyval) (outer inner : string)
    (default : pyval) :
  ~ dict_or_absent outer parsed ->
  get_nested parsed outer inner default = Raise AttributeError.
Proof.
  unfold get_nested, dict_or_absent. simpl.
  destruct (dict_get outer parsed) as [[]|]; simpl; intros N;
    try reflexivity; exfalso; apply N; exact I.
Qed.

Lemma score_category_bad (parsed : dict pyval) (category : string)
    (rules : category_rules) :
  ~ parsed_wf parsed ->
  score_category parsed category rules = Raise AttributeError.
Proof.
  intros N. unfold score_category.
  destruct (dict_or_absent_dec "subject" parsed) as [Hs | Hs];
    [| now rewrite (get_nested_bad _ _ _ _ Hs)].
  rewrite (get_nested_wf _ _ _ _ Hs). cbn [bind].
  destruct (dict_or_absent_dec "mood" parsed) as [Hm | Hm];
    [| rewrite (get_nested_bad _ _ _ _ Hm); now destruct (py_in_strs _ _)].
  rewrite (get_nested_wf _ _ _ _ Hm).
  destruct (dict_or_absent_dec "action" parsed) as [Ha | Ha];
    [exfalso; apply N; repeat split; assumption |].
  rewrite (get_nested_bad _ _ _ _ Ha).
  destruct (py_in_strs _ _); cbn [bind]; now destruct (py_in_strs _ _).
Qed.

Lemma dict_set_nonempty {V : Type} (k : string) (v : V) (d : dict V) :
  dict_set k v d <> [].
Proof.
  destruct d as [|[k' v'] d]; simpl; [discriminate |].
  destruct (String.eqb k' k); discriminate.
Qed.

Lemma score_loop_returns (parsed : dict pyval) :
  parsed_wf parsed ->
  forall (items : list (string * category_rules)) (acc : dict score_entry),
    exists found,
      score_loop parsed items acc = Ok found /\
      (acc <> [] \/ items <> [] -> found <> []).
Proof.
  intros W. induction items as [|[c r] items IH]; intros acc; simpl.
  - exists acc. split; [reflexivity |]. intros [H | H]; congruence.
  - rewrite (score_category_spec _ _ _ W). cbn [bind].
    destruct (IH (dict_set c (spec_entry parsed c r) acc)) as (found & E & NE).
    exists found. split; [exact E |].
    intros _. apply NE. left. apply dict_set_nonempty.
Qed.

(** X1.  [suggest_category] returns a suggestion exactly when the Rule
    Store is not empty and the subject, mood and action of the parsed
    structure are dictionaries when present; on an empty store it raises
    IndexError, and otherwise on a sub-field that is not a dictionary it
    raises AttributeError. *)
Theorem suggest_category_outcomes :
  forall (categories : dict category_rules) (parsed : dict pyval),
    (categories = [] -> suggest_category categories parsed = Raise IndexError) /\
    (categories <> [] -> ~ parsed_wf parsed ->
     suggest_category categories parsed = Raise AttributeError) /\
    (categories <> [] -> parsed_wf parsed ->
     exists r, suggest_category categories parsed = Ok r).
Proof.
  intros categories parsed. repeat split.
  - intros ->. reflexivity.
  - intros NE N. destruct categories as [|[c r] rest]; [congruence |].
    unfold suggest_category. cbn [score_loop].
    now rewrite (score_category_bad _ _ _ N).
  - intros NE W. unfold suggest_category.
    destruct (score_loop_returns parsed W categories []) as (found & E & F).
    rewrite E. cbn [bind].
    destruct (rank found) as [|top rest] eqn:R.
    + exfalso. revert R. apply rank_nonempty. apply F. now right.
    + eexists. reflexivity.
Qed.

Lemma suggest_category_outcomes_witness :
  Sample.CATEGORIES <> [] /\
  ~ parsed_wf [("subject", PyStr "a chef")] /\
  parsed_wf Sample.chef /\
  Sample.suggest_category [("subject", PyStr "a chef")] = Raise AttributeError /\
  exists r, Sample.suggest_category Sample.chef = Ok r.
Proof.
  assert (Sample.CATEGORIES <> []) as NE by discriminate.
  assert (~ parsed_wf [("subject", PyStr "a chef")]) as N
      by (intros (H & _); exact H).
  assert (parsed_wf Sample.chef) as W by (repeat split).
  split; [exact NE |]. split; [exact N |]. split; [exact W |].
  destruct (suggest_category_outcomes Sample.CATEGORIES
              [("subject", PyStr "a chef")]) as (_ & Bad & _).
  destruct (suggest_category_outcomes Sample.CATEGORIES Sample.chef)
    as (_ & _ & Good).
  split; [exact (Bad NE N) | exact (Good NE W)].
Defined.

(** ** What a returned suggestion looks like *)

Lemma suggest_category_inv (categories : dict category_rules)
    (parsed : dict pyval) (r : Suggestion) :
  dict_wf categories ->
  suggest_category categories parsed = Ok r ->
  parsed_wf parsed /\
  exists top rest,
    rank (spec_entries categories parsed) = top :: rest /\
    r = spec_suggestion categories parsed top (top :: rest).
Proof.
  intros N E.
  assert (categories <> []) as NE.
  { intros ->. discriminate E. }
  assert (parsed_wf parsed) as W.
  { destruct (parsed_wf_dec parsed) as [W | B]; [exact W | exfalso].
    destruct categories as [|[c rl] rest]; [congruence |].
    unfold suggest_category in E. cbn [score_loop] in E.
    rewrite (score_category_bad _ _ _ B) in E. discriminate E. }
  split; [exact W |].
  destruct (suggest_category_returns _ _ W N NE) as (top & rest & R & E').
  exists top, rest. split; [exact R |]. congruence.
Qed.

Lemma In_firstn {A : Type} (n : nat) (l : list A) (x : A) :
  In x (firstn n l) -> In x l.
Proof.
  intros I. rewrite <- (firstn_skipn n l). apply in_or_app. now left.
Qed.

Lemma NoDup_firstn {A : Type} (n : nat) (l : list A) :
  NoDup l -> NoDup (firstn n l).
Proof.
  intros N. rewrite <- (firstn_skipn n l) in N.
  now apply NoDup_app_remove_r in N.
Qed.

Lemma spec_entries_In (categories : dict category_rules) (parsed : dict pyval)
    (x : string * score_entry) :
  In x (spec_entries categories parsed) ->
  exists rules,
    In (fst x, rules) categories /\ snd x = spec_entry parsed (fst x) rules.
Proof.
  unfold spec_entries. intros I. apply in_map_iff in I as ([c r] & <- & I).
  exists r. split; [exact I | reflexivity].
Qed.

Lemma ranked_keys (categories : dict category_rules) (parsed : dict pyval) :
  Permutation (dict_keys categories)
    (map fst (rank (spec_entries categories parsed))).
Proof.
  rewrite <- (spec_entries_keys categories parsed).
  apply Permutation_map, sorted_desc_perm.
Qed.

Lemma spec_score_bounds (parsed : dict pyval) (category : string)
    (rules : category_rules) :
  0 <= spec_score parsed category rules
  <= 7 + Z.of_nat (List.length (get_list (trigger_keywords rules))).
Proof.
  unfold spec_score, spec_subject_points, spec_mood_points,
    spec_energy_points, spec_keyword_hits.
  pose proof (filter_length_le
                (fun keyword =>
                   str_in keyword (py_lower (py_str (PyDict parsed))))
                (get_list (trigger_keywords rules))) as L.
  destruct (py_in_strs _ (get_list (ideal_subjects rules)));
    destruct (py_in_strs _ (get_list (compatible_moods rules)));
    match goal with |- context [if ?b then 2 else 0] => destruct b end;
    lia.
Qed.

(** X2.  The [scores] of a returned suggestion list every category of the
    Rule Store exactly once, in declaration order. *)
Theorem suggest_scores_cover_the_store :
  forall (categories : dict category_rules) (parsed : dict pyval)
         (r : Suggestion),
    dict_wf categories ->
    suggest_category categories parsed = Ok r ->
    dict_keys (scores r) = dict_keys categories /\ dict_wf (scores r).
Proof.
  intros categories parsed r N E.
  destruct (suggest_category_inv _ _ _ N E) as (_ & top & rest & _ & ->).
  cbn [scores spec_suggestion].
  assert (dict_keys
            (map (fun cr => (fst cr, spec_score parsed (fst cr) (snd cr)))
                 categories)
          = dict_keys categories) as K.
  { unfold dict_keys. now rewrite map_map. }
  split; [exact K |]. unfold dict_wf. now rewrite K.
Qed.

Lemma suggest_scores_cover_the_store_witness :
  dict_wf Sample.CATEGORIES /\
  exists r,
    Sample.suggest_category Sample.chef = Ok r /\
    dict_keys (scores r)
    = ["mascot_theater"; "health_halo"; "nostalgia_revival";
       "premium_disruptor"; "kid_chaos"; "transparent_honest";
       "adventure_fantasy"].
Proof.
  assert (dict_wf Sample.CATEGORIES) as N
      by (apply distinctb_sound; reflexivity).
  split; [exact N |]. eexists. split; [reflexivity |].
  apply (suggest_scores_cover_the_store Sample.CATEGORIES Sample.chef _ N
           eq_refl).
Defined.

(** X3.  Every score of a returned suggestion is at least 0 and at most 7
    plus the number of trigger keywords of its category. *)
Theorem suggest_scores_are_bounded :
  forall (categories : dict category_rules) (parsed : dict pyval)
         (r : Suggestion) (category : string) (s : Z),
    dict_wf categories ->
    suggest_category categories parsed = Ok r ->
    dict_get category (scores r) = Some s ->
    exists rules,
      dict_get category categories = Some rules /\
      0 <= s <= 7 + Z.of_nat (List.length (get_list (trigger_keywords rules))).
Proof.
  intros categories parsed r category s N E G.
  destruct (suggest_category_inv _ _ _ N E) as (_ & top & rest & _ & ->).
  cbn [scores spec_suggestion] in G.
  rewrite (dict_get_map_entries (spec_score parsed)) in G.
  destruct (dict_get category categories) as [rules|]; [| discriminate G].
  injection G as <-. exists rules. split; [reflexivity |].
  apply spec_score_bounds.
Qed.

Lemma suggest_scores_are_bounded_witness :
  dict_wf Sample.CATEGORIES /\
  exists r,
    Sample.suggest_category Sample.chef = Ok r /\
    dict_get "health_halo" (scores r) = Some 4 /\
    0 <= 4 <= 7 + 2.
Proof.
  assert (dict_wf Sample.CATEGORIES) as N
      by (apply distinctb_sound; reflexivity).
  split; [exact N |]. eexists. split; [reflexivity |].
  split; [reflexivity |].
  destruct (suggest_scores_are_bounded Sample.CATEGORIES Sample.chef _
              "health_halo" 4 N eq_refl eq_refl) as (rules & G & B).
  injection G as <-. exact B.
Defined.

Lemma ranked_top (categories : dict category_rules) (parsed : dict pyval)
    (top : string * score_entry) (rest : list (string * score_entry)) :
  dict_wf categories ->
  rank (spec_entries categories parsed) = top :: rest ->
  exists rules,
    dict_get (fst top) categories = Some rules /\
    snd top = spec_entry parsed (fst top) rules.
Proof.
  intros N R.
  assert (In top (spec_entries categories parsed)) as I.
  { eapply Permutation_in;
      [apply Permutation_sym, (sorted_desc_perm (fun x => score (snd x))) |].
    fold (rank (spec_entries categories parsed)). rewrite R. now left. }
  apply spec_entries_In in I as (rules & I & S).
  exists rules. split; [now apply dict_get_In | exact S].
Qed.

(** X4.  The primary suggestion is a category of the Rule Store, and no
    category has a higher score than it. *)
Theorem primary_has_the_highest_score :
  forall (categories : dict category_rules) (parsed : dict pyval)
         (r : Suggestion),
    dict_wf categories ->
    suggest_category categories parsed = Ok r ->
    In (primary_suggestion r) (dict_keys categories) /\
    exists best,
      dict_get (primary_suggestion r) (scores r) = Some best /\
      forall (category : string) (s : Z),
        dict_get category (scores r) = Some s -> s <= best.
Proof.
  intros categories parsed r N E.
  destruct (suggest_category_inv _ _ _ N E) as (_ & top & rest & R & ->).
  destruct (ranked_top _ _ _ _ N R) as (rules & G & S).
  cbn [primary_suggestion scores spec_suggestion].
  split.
  { apply dict_get_Some_In in G. change (fst top) with (fst (fst top, rules)).
    now apply in_map. }
  exists (score (snd top)). split.
  { rewrite (dict_get_map_entries (spec_score parsed)), G, S. reflexivity. }
  intros category s Gs.
  rewrite (dict_get_map_entries (spec_score parsed)) in Gs.
  destruct (dict_get category categories) as [rules'|] eqn:G';
    [| discriminate Gs].
  injection Gs as <-.
  assert (In (category, spec_entry parsed category rules')
             (top :: rest)) as I.
  { rewrite <- R. eapply Permutation_in; [apply sorted_desc_perm |].
    unfold spec_entries. apply dict_get_Some_In in G'.
    apply in_map_iff. now exists (category, rules'). }
  pose proof (sorted_desc_sorted (fun x => score (snd x))
                (spec_entries categories parsed)) as Srt.
  fold (rank (spec_entries categories parsed)) in Srt. rewrite R in Srt.
  destruct I as [I | I]; [rewrite I; simpl; lia |].
  apply StronglySorted_inv in Srt as [_ F].
  rewrite Forall_forall in F. apply (F _ I).
Qed.

Lemma primary_has_the_highest_score_witness :
  dict_wf Sample.CATEGORIES /\
  exists r best,
    Sample.suggest_category Sample.still_life = Ok r /\
    dict_get (primary_suggestion r) (scores r) = Some best /\
    5 <= best.
Proof.
  assert (dict_wf Sample.CATEGORIES) as N
      by (apply distinctb_sound; reflexivity).
  split; [exact N |].
  destruct (Sample.suggest_category Sample.still_life) as [r|] eqn:E;
    [| discriminate E].
  destruct (primary_has_the_highest_score Sample.CATEGORIES Sample.still_life
              r N E) as (_ & best & G & B).
  exists r, best. split; [reflexivity |]. split; [exact G |].
  apply (B "premium_disruptor"). vm_compute in E. injection E as <-.
  reflexivity.
Defined.

(** X5.  The alternatives of a returned suggestion are categories of the
    Rule Store, differ from the primary suggestion and from each other, and
    are two in number unless the store has fewer than three categories. *)
Theorem alternatives_are_distinct_categories :
  forall (categories : dict category_rules) (parsed : dict pyval)
         (r : Suggestion),
    dict_wf categories ->
    suggest_category categories parsed = Ok r ->
    NoDup (primary_suggestion r :: alternatives r) /\
    incl (alternatives r) (dict_keys categories) /\
    List.length (alternatives r)
    = Nat.min 2 (List.length categories - 1).
Proof.
  intros categories parsed r N E.
  destruct (suggest_category_inv _ _ _ N E) as (_ & top & rest & R & ->).
  pose proof (ranked_keys categories parsed) as P. rewrite R in P.
  cbn [primary_suggestion alternatives spec_suggestion skipn].
  assert (NoDup (map fst (top :: rest))) as D.
  { eapply Permutation_NoDup; [exact P | exact N]. }
  simpl in D. inversion D as [|? ? NI D']; subst.
  rewrite <- firstn_map.
  split; [| split].
  - constructor.
    + intros I. apply NI. eapply In_firstn, I.
    + now apply NoDup_firstn.
  - intros c I. eapply Permutation_in; [apply Permutation_sym, P |].
    right. eapply In_firstn, I.
  - rewrite length_firstn, length_map.
    apply Permutation_length in P. unfold dict_keys in P.
    rewrite length_map in P. simpl in P. rewrite length_map in P. lia.
Qed.

Lemma alternatives_are_distinct_categories_witness :
  dict_wf Sample.CATEGORIES /\
  exists r,
    Sample.suggest_category Sample.chef = Ok r /\
    NoDup (primary_suggestion r :: alternatives r) /\
    List.length (alternatives r) = 2%nat.
Proof.
  assert (dict_wf Sample.CATEGORIES) as N
      by (apply distinctb_sound; reflexivity).
  split; [exact N |]. eexists. split; [reflexivity |].
  destruct (alternatives_are_distinct_categories Sample.CATEGORIES
              Sample.chef _ N eq_refl) as (D & _ & L).
  split; [exact D | exact L].
Defined.

Lemma spec_reasons_nil (parsed : dict pyval) (category : string)
    (rules : category_rules) :
  spec_reasons parsed category rules = [] ->
  spec_score parsed category rules
  = Z.of_nat (List.length (spec_keyword_hits parsed rules)).
Proof.
  unfold spec_reasons, spec_score, spec_subject_points, spec_mood_points,
    spec_energy_points.
  set (e := lookup2 parsed "action" "energy_level" (PyStr "medium")).
  destruct (py_in_strs _ (get_list (ideal_subjects rules)));
    [discriminate |].
  destruct (py_in_strs _ (get_list (compatible_moods rules)));
    [discriminate |].
  destruct (energetic category
            && (py_eq_str e "high" || py_eq_str e "extreme"));
    [discriminate |].
  destruct (minimalist category && py_eq_str e "low"); [discriminate |].
  intros _. simpl. lia.
Qed.

Lemma spec_reasons_head (parsed : dict pyval) (category : string)
    (rules : category_rules) (x : string) (l : list string) :
  spec_reasons parsed category rules = x :: l ->
  exists (c : ascii) (s : string),
    x = String c s /\ c <> "G"%char.
Proof.
  unfold spec_reasons.
  set (e := lookup2 parsed "action" "energy_level" (PyStr "medium")).
  destruct (py_in_strs _ (get_list (ideal_subjects rules)));
    [intros [= <- _]; eexists _, _; split; [reflexivity | discriminate] |].
  destruct (py_in_strs _ (get_list (compatible_moods rules)));
    [intros [= <- _]; eexists _, _; split; [reflexivity | discriminate] |].
  destruct (energetic category
            && (py_eq_str e "high" || py_eq_str e "extreme"));
    [intros [= <- _]; eexists _, _; split; [reflexivity | discriminate] |].
  destruct (minimalist category && py_eq_str e "low");
    [intros [= <- _]; eexists _, _; split; [reflexivity | discriminate] |].
  discriminate.
Qed.

(** X6.  The reasoning of a returned suggestion is the fallback text
    General compatibility exactly when the winning category recorded no
    reason, and then the winner's score is its number of matching trigger
    keywords alone. *)
Theorem fallback_reasoning_means_keywords_only :
  forall (categories : dict category_rules) (parsed : dict pyval)
         (r : Suggestion),
    dict_wf categories ->
    suggest_category categories parsed = Ok r ->
    exists rules entry,
      dict_get (primary_suggestion r) categories = Some rules /\
      score_category parsed (primary_suggestion r) rules = Ok entry /\
      (reasoning r = "General compatibility" <-> reasons entry = []) /\
      (reasoning r = "General compatibility" ->
       score entry
       = Z.of_nat
           (List.length
              (filter (fun keyword =>
                         str_in keyword (py_lower (py_str (PyDict parsed))))
                      (get_list (trigger_keywords rules))))).
Proof.
  intros categories parsed r N E.
  destruct (suggest_category_inv _ _ _ N E) as (W & top & rest & R & ->).
  destruct (ranked_top _ _ _ _ N R) as (rules & G & S).
  exists rules, (spec_entry parsed (fst top) rules).
  cbn [primary_suggestion reasoning spec_suggestion]. rewrite S.
  cbn [reasons score spec_entry].
  split; [exact G |]. split; [now apply score_category_spec |].
  assert (match spec_reasons parsed (fst top) rules with
          | [] => "General compatibility"
          | _ :: _ => String.concat "; " (spec_reasons parsed (fst top) rules)
          end = "General compatibility"
          <-> spec_reasons parsed (fst top) rules = []) as Iff.
  { destruct (spec_reasons parsed (fst top) rules) as [|x l] eqn:Rs;
      [tauto |].
    split; [| discriminate].
    destruct (spec_reasons_head _ _ _ _ _ Rs) as (c & s & -> & NG).
    destruct l; simpl; intros [= H _]; congruence. }
  split; [exact Iff |].
  intros F. apply Iff in F. now apply spec_reasons_nil.
Qed.

Lemma fallback_reasoning_means_keywords_only_witness :
  dict_wf Sample.CATEGORIES /\
  dict_wf Sample.BISTRO /\
  (exists r,
      Sample.suggest_category [("mood", PyDict [("emotion", PyStr "Retro")])]
      = Ok r /\
      primary_suggestion r = "nostalgia_revival" /\
      reasoning r = "General compatibility" /\
      dict_get "nostalgia_revival" (scores r) = Some 1) /\
  (exists r,
      suggest_category Sample.BISTRO Sample.menu = Ok r /\
      reasoning r = "General compatibility" /\
      dict_get "bistro" (scores r) = Some 1).
Proof.
  assert (dict_wf Sample.CATEGORIES) as N
      by (apply distinctb_sound; reflexivity).
  assert (dict_wf Sample.BISTRO) as N'
      by (apply distinctb_sound; reflexivity).
  split; [exact N |]. split; [exact N' |]. split.
  - eexists. split; [reflexivity |].
    destruct (fallback_reasoning_means_keywords_only Sample.CATEGORIES
                [("mood", PyDict [("emotion", PyStr "Retro")])] _ N eq_refl)
      as (rules & entry & _ & _ & Iff & _).
    split; [reflexivity |]. split; [| reflexivity].
    apply Iff. destruct Iff as [F _]. apply F. reflexivity.
  - eexists. split; [reflexivity |].
    destruct (fallback_reasoning_means_keywords_only Sample.BISTRO
                Sample.menu _ N' eq_refl)
      as (rules & entry & _ & _ & Iff & _).
    split; [| reflexivity].
    apply Iff. destruct Iff as [F _]. apply F. reflexivity.
Defined.

(** X7.  Every category a returned suggestion names, primary or
    alternative, is accepted by [get_category_rules] and by
    [apply_transformations]: neither raises the unknown-category error on
    it. *)
Theorem suggested_categories_are_accepted :
  forall (categories : dict category_rules) (maps : pyval)
         (transformation :
            dict pyval -> category_rules -> pyval -> StyleParams -> dict pyval)
         (parsed : dict pyval) (r : Suggestion) (category : string)
         (params : option StyleParams),
    dict_wf categories ->
    suggest_category categories parsed = Ok r ->
    In category (primary_suggestion r :: alternatives r) ->
    exists rules,
      get_category_rules categories category = Ok rules /\
      apply_transformations categories maps transformation parsed category
        params
      = Ok (transformation parsed rules maps
              match params with
              | Some p => p
              | None => no_params
              end).
Proof.
  intros categories maps transformation parsed r category params N E I.
  assert (In category (dict_keys categories)) as K.
  { destruct (suggest_category_inv _ _ _ N E) as (_ & top & rest & R & ->).
    pose proof (ranked_keys categories parsed) as P. rewrite R in P.
    eapply Permutation_in; [apply Permutation_sym, P |].
    cbn [primary_suggestion alternatives spec_suggestion skipn] in I.
    destruct I as [<- | I]; [now left | right].
    rewrite <- firstn_map in I. eapply In_firstn, I. }
  destruct (dict_get category categories) as [rules|] eqn:G.
  - exists rules. unfold get_category_rules, apply_transformations.
    now rewrite G.
  - apply dict_get_None in G. tauto.
Qed.

Lemma suggested_categories_are_accepted_witness :
  dict_wf Sample.CATEGORIES /\
  exists r rules,
    Sample.suggest_category Sample.chef = Ok r /\
    In "premium_disruptor" (primary_suggestion r :: alternatives r) /\
    Sample.get_category_rules "premium_disruptor" = Ok rules.
Proof.
  assert (dict_wf Sample.CATEGORIES) as N
      by (apply distinctb_sound; reflexivity).
  split; [exact N |].
  assert (In "premium_disruptor"
            ["health_halo"; "premium_disruptor"; "mascot_theater"]) as I
      by (simpl; tauto).
  destruct (suggested_categories_are_accepted
              Sample.CATEGORIES Sample.TRANSFORMATION_MAPS
              Sample.apply_category_transformation Sample.chef _
              "premium_disruptor" None N eq_refl I) as (rules & G & _).
  eexists _, rules. split; [reflexivity |]. split; [exact I | exact G].
Defined.

(** ** Which trigger keywords can match *)

Lemma prefix_has_char (k : string) :
  forall (s : string) (c : ascii),
    String.prefix k s = true -> has_char c k = true -> has_char c s = true.
Proof.
  induction k as [|a k IH]; intros s c P H; [discriminate H |].
  destruct s as [|b s]; [discriminate P |]. simpl in P.
  destruct (ascii_dec a b) as [-> | _]; [| discriminate P].
  simpl in *. apply orb_true_iff in H as [H | H].
  - now rewrite H.
  - rewrite (IH _ _ P H). apply orb_true_r.
Qed.

Lemma str_in_has_char (k s : string) (c : ascii) :
  str_in k s = true -> has_char c k = true -> has_char c s = true.
Proof.
  intros I H. induction s as [|b s IH].
  - destruct k; [discriminate H | discriminate I].
  - cbn [str_in] in I. apply orb_true_iff in I as [P | I].
    + eapply prefix_has_char; eassumption.
    + simpl. rewrite (IH I). apply orb_true_r.
Qed.

Lemma lower_char_not_upper (c : ascii) : is_upper (lower_char c) = false.
Proof.
  destruct c as [[] [] [] [] [] [] [] []]; reflexivity.
Qed.

Lemma py_lower_no_upper (s : string) (c : ascii) :
  has_char c (py_lower s) = true -> is_upper c = false.
Proof.
  induction s as [|b s IH]; simpl; [discriminate |].
  intros H. apply orb_true_iff in H as [H | H]; [| exact (IH H)].
  apply Ascii.eqb_eq in H. subst c. apply lower_char_not_upper.
Qed.

(** X8.  A trigger keyword that contains an upper-case ASCII letter never
    matches: the scorer lower-cases the rendering of the parsed structure
    but not the keyword, so the test [keyword in prompt_text] is false for
    it whatever the parsed structure. *)
Theorem uppercase_keyword_never_matches :
  forall (parsed : dict pyval) (keyword : string) (c : ascii),
    has_char c keyword = true ->
    is_upper c = true ->
    str_in keyword (py_lower (py_str (PyDict parsed))) = false.
Proof.
  intros parsed keyword c H U.
  destruct (str_in keyword (py_lower (py_str (PyDict parsed)))) eqn:I;
    [| reflexivity].
  pose proof (py_lower_no_upper _ _ (str_in_has_char _ _ _ I H)) as L.
  congruence.
Qed.

Lemma uppercase_keyword_never_matches_witness :
  has_char "C"%char "Chef" = true /\
  is_upper "C"%char = true /\
  str_in "Chef"
    (py_lower (py_str (PyDict [("subject", PyDict [("type", PyStr "Chef")])])))
  = false /\
  str_in "chef"
    (py_lower (py_str (PyDict [("subject", PyDict [("type", PyStr "Chef")])])))
  = true.
Proof.
  split; [reflexivity |]. split; [reflexivity |]. split; [| reflexivity].
  apply (uppercase_keyword_never_matches _ "Chef" "C"%char); reflexivity.
Defined.

Lemma str_in_trans (a b c : string) :
  str_in a b = true -> str_in b c = true -> str_in a c = true.
Proof.
  intros Hab Hbc. apply str_in_split in Hbc as (p & q & ->).
  now apply str_in_app_l, str_in_app_r.
Qed.

Lemma py_lower_app (a b : string) :
  py_lower (a ++ b) = py_lower a ++ py_lower b.
Proof.
  induction a as [|c a IH]; simpl; [reflexivity | now rewrite IH].
Qed.

Lemma str_in_lower (k s : string) :
  str_in k s = true -> str_in (py_lower k) (py_lower s) = true.
Proof.
  intros I. apply str_in_split in I as (a & b & ->).
  rewrite !py_lower_app. apply str_in_app_l, str_in_app_r, str_in_refl.
Qed.

Lemma key_in_rendering (d : dict pyval) (key : string) :
  In key (dict_keys d) -> str_in (repr_str key) (py_repr (PyDict d)) = true.
Proof.
  intros I. unfold dict_keys in I. apply in_map_iff in I as ([k v] & <- & I).
  cbn [py_repr fst]. apply str_in_app_l, str_in_app_r.
  eapply str_in_trans;
    [| apply str_in_concat,
         (in_map (fun kv => repr_str (fst kv) ++ ": " ++ py_repr (snd kv))),
         I].
  cbn [fst snd]. apply str_in_app_r, str_in_refl.
Qed.

(** X9.  Key names count as prompt text: a trigger keyword that occurs in
    the lower-cased quoted name of any top-level key of the parsed
    structure passes the test [keyword in prompt_text], whatever the values
    of the structure are. *)
Theorem keyword_matches_key_names :
  forall (parsed : dict pyval) (key keyword : string),
    In key (dict_keys parsed) ->
    str_in keyword (py_lower (repr_str key)) = true ->
    str_in keyword (py_lower (py_str (PyDict parsed))) = true.
Proof.
  intros parsed key keyword I K.
  eapply str_in_trans; [exact K |].
  apply str_in_lower. change (py_str (PyDict parsed)) with (py_repr (PyDict parsed)).
  now apply key_in_rendering.
Qed.

Lemma keyword_matches_key_names_witness :
  In "action" (dict_keys Sample.still_life) /\
  str_in "action" (py_lower (repr_str "action")) = true /\
  str_in "action" (py_lower (py_str (PyDict Sample.still_life))) = true /\
  In Sample.capital_e_acute
     (dict_keys [(Sample.capital_e_acute, PyNone)]) /\
  str_in Sample.e_acute (py_lower (repr_str Sample.capital_e_acute)) = true /\
  str_in Sample.capital_e_acute
    (py_lower (repr_str Sample.capital_e_acute)) = false /\
  str_in Sample.e_acute
    (py_lower (py_str (PyDict [(Sample.capital_e_acute, PyNone)]))) = true.
Proof.
  assert (In "action" (dict_keys Sample.still_life)) as I by (simpl; tauto).
  assert (In Sample.capital_e_acute
             (dict_keys [(Sample.capital_e_acute, PyNone)])) as I'
      by (simpl; tauto).
  split; [exact I |]. split; [reflexivity |]. split.
  { apply (keyword_matches_key_names _ "action" "action" I). reflexivity. }
  split; [exact I' |]. split; [reflexivity |]. split; [reflexivity |].
  apply (keyword_matches_key_names _ Sample.capital_e_acute Sample.e_acute I').
  reflexivity.
Defined.

(** ** Looking categories up *)

(** X10.  For an identifier that is not in the Rule Store,
    [get_category_rules] raises a ValueError whose message names the
    identifier and lists every valid identifier; for one that is, it
    returns the rules stored under it. *)
Theorem get_category_rules_lists_valid_ids :
  forall (categories : dict category_rules) (category : string),
    (~ In category (dict_keys categories) ->
     exists msg,
       get_category_rules categories category = Raise (ValueError msg) /\
       str_in category msg = true /\
       forall valid,
         In valid (dict_keys categories) ->
         str_in (repr_str valid) msg = true) /\
    (forall rules,
        dict_get category categories = Some rules ->
        get_category_rules categories category = Ok rules).
Proof.
  intros categories category. split.
  - intros N. apply dict_get_None in N. unfold get_category_rules.
    rewrite N. eexists. split; [reflexivity |]. split.
    + apply str_in_app_l, str_in_app_r, str_in_refl.
    + intros valid I. do 3 apply str_in_app_l. cbn [py_str py_repr].
      apply str_in_app_l, str_in_app_r, str_in_concat.
      rewrite map_map. cbn [py_repr]. now apply (in_map repr_str).
  - intros rules G. unfold get_category_rules. now rewrite G.
Qed.

Lemma get_category_rules_lists_valid_ids_witness :
  ~ In "bogus" (dict_keys Sample.CATEGORIES) /\
  exists msg,
    Sample.get_category_rules "bogus" = Raise (ValueError msg) /\
    str_in "'kid_chaos'" msg = true.
Proof.
  assert (~ In "bogus" (dict_keys Sample.CATEGORIES)) as N.
  { apply dict_get_None. reflexivity. }
  split; [exact N |].
  destruct (proj1 (get_category_rules_lists_valid_ids
                     Sample.CATEGORIES "bogus") N) as (msg & E & _ & L).
  exists msg. split; [exact E |].
  apply (L "kid_chaos"). simpl. tauto.
Defined.

(** X11.  [get_category_rules] and [apply_transformations] accept exactly
    the same category identifiers, the keys of the Rule Store, whatever the
    parsed components and the style parameters are. *)
Theorem lookup_and_transform_accept_the_same_ids :
  forall (categories : dict category_rules) (maps : pyval)
         (transformation :
            dict pyval -> category_rules -> pyval -> StyleParams -> dict pyval)
         (parsed : dict pyval) (params : option StyleParams)
         (category : string),
    ((exists rules, get_category_rules categories category = Ok rules) <->
     In category (dict_keys categories)) /\
    ((exists transformed,
         apply_transformations categories maps transformation parsed category
           params = Ok transformed) <->
     In category (dict_keys categories)).
Proof.
  intros categories maps transformation parsed params category.
  unfold get_category_rules, apply_transformations.
  destruct (dict_get category categories) as [rules|] eqn:G.
  - assert (In category (dict_keys categories)) as I.
    { apply dict_get_Some_In in G.
      change category with (fst (category, rules)). now apply in_map. }
    split; (split; [intros _; exact I | intros _; eexists; reflexivity]).
  - apply dict_get_None in G.
    split; (split; [intros (x & H); discriminate H | tauto]).
Qed.

(** X12.  [get_available_categories] lists every category of the Rule Store
    exactly once, in declaration order, each with its description and
    visual DNA, and with an empty list where [ideal_subjects] or
    [compatible_moods] is absent. *)
Theorem available_categories_mirror_the_store :
  forall categories : dict category_rules,
    dict_wf categories ->
    dict_keys (get_available_categories categories) = dict_keys categories /\
    forall (name : string) (rules : category_rules),
      dict_get name categories = Some rules ->
      exists info,
        dict_get name (get_available_categories categories) = Some info /\
        info_description info = description rules /\
        info_visual_dna info = visual_dna rules /\
        ideal_for info = get_list (ideal_subjects rules) /\
        mood_match info = get_list (compatible_moods rules) /\
        (ideal_subjects rules = None -> ideal_for info = []) /\
        (compatible_moods rules = None -> mood_match info = []).
Proof.
  intros categories N. unfold get_available_categories.
  rewrite dict_of_items_wf by (rewrite map_map; exact N).
  split; [unfold dict_keys; now rewrite map_map |].
  intros name rules G.
  rewrite (dict_get_map_entries
             (fun _ rl =>
                {| info_description := description rl;
                   info_visual_dna := visual_dna rl;
                   ideal_for := get_list (ideal_subjects rl);
                   mood_match := get_list (compatible_moods rl) |})), G.
  eexists. split; [reflexivity |]. cbn.
  repeat split; intros ->; reflexivity.
Qed.

Lemma available_categories_mirror_the_store_witness :
  dict_wf Sample.CATEGORIES /\
  dict_keys (get_available_categories Sample.CATEGORIES)
  = dict_keys Sample.CATEGORIES.
Proof.
  assert (dict_wf Sample.CATEGORIES) as N
      by (apply distinctb_sound; reflexivity).
  split; [exact N |].
  apply (available_categories_mirror_the_store Sample.CATEGORIES N).
Defined.

(** ** When the assembler returns *)

Lemma emphasis_loop_numbers (items : list (string * pyval)) :
  forall acc : dict float,
    forallb is_number (map snd items) = true ->
    exists emphasis, emphasis_loop items acc = Ok emphasis.
Proof.
  induction items as [|[c w] items IH]; intros acc F; simpl.
  - now exists acc.
  - simpl in F. apply andb_prop in F as [Fw F].
    destruct w; try discriminate Fw; cbn [py_num bind]; apply IH, F.
Qed.

(** X13.  A missing template makes [build_prompt_skeleton] raise KeyError
    with the category, whatever the transformed components and the weights
    are: the template lookup comes first.  With a template, and weights
    that are a dictionary of integers or booleans, it returns a skeleton
    (the helper [order_by_importance] returning on such well-typed
    input). *)
Theorem build_prompt_skeleton_outcomes :
  forall (CATEGORIES : dict category_rules) (TEMPLATES : dict Template)
         (order_by_importance : dict pyval -> pyval -> list string -> dict pyval)
         (generate_negative_prompt : string -> dict category_rules -> string)
         (transformed : dict pyval) (category : string),
    (dict_get category TEMPLATES = None ->
     forall weights : pyval,
       build_prompt_skeleton CATEGORIES TEMPLATES order_by_importance
         generate_negative_prompt transformed category weights
       = Raise (KeyError category)) /\
    (forall (template : Template) (d : dict pyval),
        dict_get category TEMPLATES = Some template ->
        forallb is_number (map snd d) = true ->
        exists sk,
          build_prompt_skeleton CATEGORIES TEMPLATES order_by_importance
            generate_negative_prompt transformed category (PyDict d)
          = Ok sk).
Proof.
  intros C T o g transformed category.
  unfold build_prompt_skeleton. split.
  - intros -> weights. reflexivity.
  - intros template d -> F. cbn [py_items bind].
    destruct (emphasis_loop_numbers d [] F) as (e & ->).
    cbn [bind]. eexists. reflexivity.
Qed.

Lemma build_prompt_skeleton_outcomes_witness :
  dict_get "bogus" Sample.TEMPLATES = None /\
  Sample.build_prompt_skeleton [] "bogus"
    (weights_mapping [("subject", 35)]) = Raise (KeyError "bogus") /\
  exists sk,
    Sample.build_prompt_skeleton [] "kid_chaos"
      (PyDict [("subject", PyInt 35); ("mood", PyBool true)]) = Ok sk.
Proof.
  split; [reflexivity |].
  pose proof (build_prompt_skeleton_outcomes
                Sample.CATEGORIES Sample.TEMPLATES Sample.order_by_importance
                Sample.generate_negative_prompt []) as B.
  split.
  - apply (proj1 (B "bogus")). reflexivity.
  - apply (proj2 (B "kid_chaos") _ _ eq_refl). reflexivity.
Defined.

(** X14.  What [build_prompt_skeleton] computes besides the sections does
    not depend on the transformed components: two calls with the same
    category and weights agree on emphasis, template, negative prompt and
    metadata category, and one returns whenever the other does. *)
Theorem assembly_frame_ignores_transformed :
  forall (CATEGORIES : dict category_rules) (TEMPLATES : dict Template)
         (order_by_importance : dict pyval -> pyval -> list string -> dict pyval)
         (generate_negative_prompt : string -> dict category_rules -> string)
         (transformed1 transformed2 : dict pyval) (category : string)
         (weights : pyval) (sk1 : Skeleton),
    build_prompt_skeleton CATEGORIES TEMPLATES order_by_importance
      generate_negative_prompt transformed1 category weights = Ok sk1 ->
    exists sk2,
      build_prompt_skeleton CATEGORIES TEMPLATES order_by_importance
        generate_negative_prompt transformed2 category weights = Ok sk2 /\
      emphasis sk2 = emphasis sk1 /\
      sk_template sk2 = sk_template sk1 /\
      negative_prompt sk2 = negative_prompt sk1 /\
      md_category (sk_metadata sk2) = md_category (sk_metadata sk1).
Proof.
  intros C T o g t1 t2 category weights sk1. unfold build_prompt_skeleton.
  destruct (dict_get category T); [| discriminate].
  destruct (py_items weights); [| discriminate]. cbn [bind].
  destruct (emphasis_loop _ _); [| discriminate]. cbn [bind].
  intros [= <-]. eexists. split; [reflexivity |]. repeat split.
Qed.

Lemma assembly_frame_ignores_transformed_witness :
  exists sk1 sk2,
    Sample.build_prompt_skeleton [("subject", PyStr "a chef")] "kid_chaos"
      (weights_mapping [("subject", 35)]) = Ok sk1 /\
    Sample.build_prompt_skeleton [("action", PyStr "juggling")] "kid_chaos"
      (weights_mapping [("subject", 35)]) = Ok sk2 /\
    emphasis sk2 = emphasis sk1.
Proof.
  eexists.
  destruct (assembly_frame_ignores_transformed
              Sample.CATEGORIES Sample.TEMPLATES Sample.order_by_importance
              Sample.generate_negative_prompt
              [("subject", PyStr "a chef")] [("action", PyStr "juggling")]
              "kid_chaos" (weights_mapping [("subject", 35)]) _ eq_refl)
    as (sk2 & E & Em & _).
  exists sk2. split; [reflexivity |]. split; [exact E | exact Em].
Defined.

Lemma spec_band_monotone (w1 w2 : Z) :
  w1 <= w2 -> PrimFloat.leb (spec_band w1) (spec_band w2) = true.
Proof.
  intros L. unfold spec_band.
  destruct (60 <? w1) eqn:A1, (40 <? w1) eqn:B1, (20 <? w1) eqn:C1,
           (60 <? w2) eqn:A2, (40 <? w2) eqn:B2, (20 <? w2) eqn:C2;
    try reflexivity;
    rewrite ?Z.ltb_lt, ?Z.ltb_ge in *; lia.
Qed.

(** X15.  Emphasis never decreases with weight: of two components of one
    weights mapping, the one with the larger weight gets an emphasis
    multiplier at least as large. *)
Theorem emphasis_grows_with_weight :
  forall (CATEGORIES : dict category_rules) (TEMPLATES : dict Template)
         (order_by_importance : dict pyval -> pyval -> list string -> dict pyval)
         (generate_negative_prompt : string -> dict category_rules -> string)
         (transformed : dict pyval) (category : string) (weights : dict Z)
         (sk : Skeleton) (c1 c2 : string) (w1 w2 : Z),
    dict_wf weights ->
    build_prompt_skeleton CATEGORIES TEMPLATES order_by_importance
      generate_negative_prompt transformed category (weights_mapping weights)
    = Ok sk ->
    dict_get c1 weights = Some w1 ->
    dict_get c2 weights = Some w2 ->
    w1 <= w2 ->
    exists e1 e2,
      dict_get c1 (emphasis sk) = Some e1 /\
      dict_get c2 (emphasis sk) = Some e2 /\
      PrimFloat.leb e1 e2 = true.
Proof.
  intros C T o g transformed category weights sk c1 c2 w1 w2 W E G1 G2 L.
  destruct (dict_get category T) as [template|] eqn:Tm.
  - rewrite (build_prompt_skeleton_spec C T o g _ _ _ _ W Tm) in E.
    cbv zeta in E. injection E as <-. cbn [emphasis].
    exists (spec_band w1), (spec_band w2). unfold spec_emphasis.
    rewrite !(dict_get_map_entries (fun _ => spec_band)), G1, G2.
    repeat split. now apply spec_band_monotone.
  - unfold build_prompt_skeleton in E. rewrite Tm in E. discriminate E.
Qed.

Lemma emphasis_grows_with_weight_witness :
  dict_wf [("subject", 70); ("mood", 20)] /\
  exists sk e1 e2,
    Sample.build_prompt_skeleton [] "kid_chaos"
      (weights_mapping [("subject", 70); ("mood", 20)]) = Ok sk /\
    dict_get "mood" (emphasis sk) = Some e1 /\
    dict_get "subject" (emphasis sk) = Some e2 /\
    PrimFloat.leb e1 e2 = true.
Proof.
  assert (dict_wf [("subject", 70); ("mood", 20)]) as W
      by (apply distinctb_sound; reflexivity).
  split; [exact W |]. eexists.
  destruct (emphasis_grows_with_weight
              Sample.CATEGORIES Sample.TEMPLATES Sample.order_by_importance
              Sample.generate_negative_prompt [] "kid_chaos"
              [("subject", 70); ("mood", 20)] _ "mood" "subject" 20 70
              W eq_refl eq_refl eq_refl ltac:(lia))
    as (e1 & e2 & G1 & G2 & L).
  exists e1, e2. split; [reflexivity |]. repeat split; assumption.
Defined.

(** ** Sequences of refinements *)

Lemma refine_component_frame (sk : Skeleton) (name value : string) :
  let sk' := snd (refine_component sk name value) in
  dict_keys (sections sk') = dict_keys (sections sk) /\
  emphasis sk' = emphasis sk /\
  sk_template sk' = sk_template sk /\
  negative_prompt sk' = negative_prompt sk /\
  md_category (sk_metadata sk') = md_category (sk_metadata sk) /\
  ready_for_synthesis (sk_metadata sk')
  = ready_for_synthesis (sk_metadata sk).
Proof.
  unfold refine_component.
  destruct (dict_mem name (sections sk)) eqn:M; simpl; [| now repeat split].
  apply dict_mem_In in M. split; [now apply dict_keys_set |].
  now repeat split.
Qed.

Lemma refine_component_outcome (sk : Skeleton) (name value : string) :
  (In name (dict_keys (sections sk)) /\
   fst (refine_component sk name value) = Ok tt) \/
  (~ In name (dict_keys (sections sk)) /\
   exists msg,
     refine_component sk name value = (Raise (ValueError msg), sk)).
Proof.
  destruct (in_dec string_dec name (dict_keys (sections sk))) as [I | N].
  - left. split; [exact I |]. now rewrite refine_component_known.
  - right. split; [exact N |]. rewrite refine_component_unknown by exact N.
    eexists. reflexivity.
Qed.

Lemma refine_all_cons (name value : string) (rest : list (string * string))
    (sk : Skeleton) :
  In name (dict_keys (sections sk)) ->
  refine_all ((name, value) :: rest) sk
  = refine_all rest (snd (refine_component sk name value)).
Proof.
  intros I. cbn [refine_all]. now rewrite refine_component_known.
Qed.

(** X16.  Whatever sequence of refinements is applied to a skeleton, and
    whether or not one of them fails, the names and order of its sections,
    its emphasis, template, negative prompt, metadata category and
    ready flag are those it started with. *)
Theorem refinements_keep_the_frame :
  forall (edits : list (string * string)) (sk : Skeleton),
    let sk' := snd (refine_all edits sk) in
    dict_keys (sections sk') = dict_keys (sections sk) /\
    emphasis sk' = emphasis sk /\
    sk_template sk' = sk_template sk /\
    negative_prompt sk' = negative_prompt sk /\
    md_category (sk_metadata sk') = md_category (sk_metadata sk) /\
    ready_for_synthesis (sk_metadata sk')
    = ready_for_synthesis (sk_metadata sk).
Proof.
  induction edits as [|[name value] rest IH]; intros sk; cbn zeta.
  - simpl. now repeat split.
  - destruct (refine_component_outcome sk name value)
      as [[I _] | [N (msg & E)]].
    + rewrite (refine_all_cons _ _ _ _ I).
      pose proof (refine_component_frame sk name value) as F.
      cbn zeta in F, IH.
      destruct (IH (snd (refine_component sk name value)))
        as (K & Em & Tm & Ng & Ct & Rd).
      destruct F as (K' & Em' & Tm' & Ng' & Ct' & Rd').
      repeat split; congruence.
    + cbn [refine_all]. rewrite E. simpl. now repeat split.
Qed.

Lemma refine_component_log (sk : Skeleton) (name value : string) :
  In name (dict_keys (sections sk)) ->
  edit_log (snd (refine_component sk name value))
  = (edit_log sk ++ [name])%list /\
  user_modifications (sk_metadata (snd (refine_component sk name value)))
  <> None.
Proof.
  intros I. rewrite refine_component_known by exact I.
  unfold edit_log. simpl. split; [reflexivity | discriminate].
Qed.

Lemma refine_all_valid (edits : list (string * string)) :
  forall sk : Skeleton,
    Forall (fun e => In (fst e) (dict_keys (sections sk))) edits ->
    fst (refine_all edits sk) = Ok tt /\
    edit_log (snd (refine_all edits sk))
    = (edit_log sk ++ map fst edits)%list.
Proof.
  induction edits as [|[name value] rest IH]; intros sk F.
  - simpl. now rewrite app_nil_r.
  - inversion F as [|? ? I F']; subst. simpl in I.
    rewrite (refine_all_cons _ _ _ _ I).
    destruct (refine_component_frame sk name value) as (K & _).
    destruct (IH (snd (refine_component sk name value))) as (O & L).
    { rewrite K. exact F'. }
    split; [exact O |].
    rewrite L, (proj1 (refine_component_log _ _ value I)).
    now rewrite <- app_assoc.
Qed.

Lemma refine_all_log_present (edits : list (string * string)) :
  forall sk : Skeleton,
    user_modifications (sk_metadata sk) <> None ->
    Forall (fun e => In (fst e) (dict_keys (sections sk))) edits ->
    user_modifications (sk_metadata (snd (refine_all edits sk))) <> None.
Proof.
  induction edits as [|[n v] rest IH]; intros sk S F; [exact S |].
  inversion F as [|? ? I F']; subst. simpl in I.
  rewrite (refine_all_cons _ _ _ _ I). apply IH.
  - apply (refine_component_log sk n v I).
  - destruct (refine_component_frame sk n v) as (K & _).
    rewrite K. exact F'.
Qed.

(** X17.  A sequence of refinements that names only existing sections
    succeeds as a whole, and afterwards [user_modifications] is the log it
    had before followed by the refined names, one per edit, in the order of
    the edits. *)
Theorem refinements_are_logged_in_order :
  forall (edits : list (string * string)) (sk : Skeleton),
    edits <> [] ->
    Forall (fun e => In (fst e) (dict_keys (sections sk))) edits ->
    fst (refine_all edits sk) = Ok tt /\
    user_modifications (sk_metadata (snd (refine_all edits sk)))
    = Some (edit_log sk ++ map fst edits)%list.
Proof.
  intros edits sk NE F.
  destruct (refine_all_valid edits sk F) as (O & L).
  split; [exact O |].
  destruct edits as [|[name value] rest]; [congruence |].
  inversion F as [|? ? I F']; subst. simpl in I.
  rewrite (refine_all_cons _ _ _ _ I) in *.
  destruct (refine_component_frame sk name value) as (K & _).
  assert (user_modifications
            (sk_metadata (snd (refine_all rest
                                 (snd (refine_component sk name value)))))
          <> None) as Some_log.
  { apply refine_all_log_present.
    - apply (refine_component_log sk name value I).
    - rewrite K. exact F'. }
  unfold edit_log in L at 1.
  destruct (user_modifications _) as [l|]; [| congruence].
  now rewrite L.
Qed.

Lemma refinements_are_logged_in_order_witness :
  [("action", "juggling"); ("subject", "a clown"); ("action", "falling")]
  <> [] /\
  fst (refine_all
         [("action", "juggling"); ("subject", "a clown"); ("action", "falling")]
         Sample.chef_skeleton) = Ok tt /\
  user_modifications
    (sk_metadata
       (snd (refine_all
               [("action", "juggling"); ("subject", "a clown");
                ("action", "falling")] Sample.chef_skeleton)))
  = Some ["action"; "subject"; "action"].
Proof.
  split; [discriminate |].
  apply (refinements_are_logged_in_order
           [("action", "juggling"); ("subject", "a clown");
            ("action", "falling")] Sample.chef_skeleton);
    [discriminate |].
  repeat constructor; simpl; tauto.
Defined.

(** X18.  A failing refinement does not undo the earlier ones: when a
    sequence of edits reaches a name that is not a section, the error is
    raised, the edits before it stay applied and the edits after it are
    not attempted. *)
Theorem failed_refinement_keeps_earlier_edits :
  forall (done : list (string * string)) (bad value : string)
         (pending : list (string * string)) (sk : Skeleton),
    Forall (fun e => In (fst e) (dict_keys (sections sk))) done ->
    ~ In bad (dict_keys (sections sk)) ->
    exists msg,
      refine_all (done ++ (bad, value) :: pending) sk
      = (Raise (ValueError msg), snd (refine_all done sk)) /\
      edit_log (snd (refine_all done sk))
      = (edit_log sk ++ map fst done)%list.
Proof.
  induction done as [|[name v] rest IH]; intros bad value pending sk F N.
  - cbn [app refine_all]. rewrite (refine_component_unknown _ _ _ N).
    eexists. split; [reflexivity |]. simpl. now rewrite app_nil_r.
  - inversion F as [|? ? I F']; subst. simpl in I.
    change (((name, v) :: rest) ++ (bad, value) :: pending)%list
      with ((name, v) :: (rest ++ (bad, value) :: pending))%list.
    rewrite !(refine_all_cons _ _ _ _ I).
    destruct (refine_component_frame sk name v) as (K & _).
    destruct (IH bad value pending (snd (refine_component sk name v)))
      as (msg & E & L).
    { rewrite K. exact F'. }
    { rewrite K. exact N. }
    exists msg. split; [exact E |].
    rewrite L, (proj1 (refine_component_log _ _ v I)).
    now rewrite <- app_assoc.
Qed.

Lemma failed_refinement_keeps_earlier_edits_witness :
  ~ In "typography" (dict_keys (sections Sample.chef_skeleton)) /\
  exists msg,
    refine_all [("action", "juggling"); ("typography", "bubbly");
                ("subject", "a clown")] Sample.chef_skeleton
    = (Raise (ValueError msg),
       snd (refine_component Sample.chef_skeleton "action" "juggling")).
Proof.
  assert (~ In "typography" (dict_keys (sections Sample.chef_skeleton))) as N.
  { simpl. intros [H | [H | []]]; discriminate H. }
  split; [exact N |].
  destruct (failed_refinement_keeps_earlier_edits
              [("action", "juggling")] "typography" "bubbly"
              [("subject", "a clown")] Sample.chef_skeleton)
    as (msg & E & _); [repeat constructor; simpl; tauto | exact N |].
  exists msg. exact E.
Defined.

Lemma dict_set_twice {V : Type} (k : string) (v1 v2 : V) (d : dict V) :
  dict_set k v2 (dict_set k v1 d) = dict_set k v2 d.
Proof.
  induction d as [|[k' v'] d IH]; simpl.
  - now rewrite String.eqb_refl.
  - destruct (String.eqb k' k) eqn:E; simpl; rewrite E; [reflexivity |].
    now rewrite IH.
Qed.

Lemma dict_set_swap {V : Type} (k1 k2 : string) (v1 v2 : V) (d : dict V) :
  k1 <> k2 ->
  In k1 (dict_keys d) ->
  In k2 (dict_keys d) ->
  dict_set k1 v1 (dict_set k2 v2 d) = dict_set k2 v2 (dict_set k1 v1 d).
Proof.
  intros N. induction d as [|[k v] d IH]; simpl; [tauto |].
  intros I1 I2.
  destruct (String.eqb k k1) eqn:E1, (String.eqb k k2) eqn:E2; simpl;
    rewrite ?E1, ?E2; try reflexivity.
  - apply String.eqb_eq in E1, E2. congruence.
  - apply String.eqb_neq in E1, E2. f_equal. apply IH; tauto.
Qed.

(** X19.  The last write wins: refining the same section twice leaves the
    sections and the token estimate as a single refinement with the second
    value would, while the name is logged twice. *)
Theorem second_refinement_overwrites_first :
  forall (sk : Skeleton) (name first second : string),
    In name (dict_keys (sections sk)) ->
    let twice := snd (refine_all [(name, first); (name, second)] sk) in
    let once := snd (refine_component sk name second) in
    sections twice = sections once /\
    estimated_tokens (sk_metadata twice) = estimated_tokens (sk_metadata once) /\
    edit_log twice = (edit_log sk ++ [name; name])%list /\
    edit_log once = (edit_log sk ++ [name])%list.
Proof.
  intros sk name first second I. cbn zeta.
  assert (In name (dict_keys
                     (sections (snd (refine_component sk name first))))) as I'.
  { destruct (refine_component_frame sk name first) as (K & _).
    now rewrite K. }
  rewrite (refine_all_cons _ _ _ _ I), (refine_all_cons _ _ _ _ I').
  cbn [refine_all].
  rewrite (refine_component_known _ _ second I').
  rewrite !(refine_component_known sk _ _ I).
  unfold edit_log. cbn. rewrite dict_set_twice. unfold append.
  rewrite <- app_assoc. now repeat split.
Qed.

Lemma second_refinement_overwrites_first_witness :
  In "action" (dict_keys (sections Sample.chef_skeleton)) /\
  sections (snd (refine_all [("action", "juggling"); ("action", "falling")]
                   Sample.chef_skeleton))
  = [("subject", PyStr "a chef"); ("action", PyStr "falling")].
Proof.
  assert (In "action" (dict_keys (sections Sample.chef_skeleton))) as I
      by (simpl; tauto).
  split; [exact I |].
  rewrite (proj1 (second_refinement_overwrites_first
                    Sample.chef_skeleton "action" "juggling" "falling" I)).
  reflexivity.
Defined.

(** X20.  Refinements of two different sections commute on the content:
    applied in either order they give the same sections and the same token
    estimate; only the order of the two names in the log differs. *)
Theorem refinements_of_different_sections_commute :
  forall (sk : Skeleton) (name1 value1 name2 value2 : string),
    name1 <> name2 ->
    In name1 (dict_keys (sections sk)) ->
    In name2 (dict_keys (sections sk)) ->
    let ab := snd (refine_all [(name1, value1); (name2, value2)] sk) in
    let ba := snd (refine_all [(name2, value2); (name1, value1)] sk) in
    sections ab = sections ba /\
    estimated_tokens (sk_metadata ab) = estimated_tokens (sk_metadata ba) /\
    edit_log ab = (edit_log sk ++ [name1; name2])%list /\
    edit_log ba = (edit_log sk ++ [name2; name1])%list.
Proof.
  intros sk name1 value1 name2 value2 N I1 I2. cbn zeta.
  assert (In name2 (dict_keys
                      (sections (snd (refine_component sk name1 value1)))))
    as I2'.
  { destruct (refine_component_frame sk name1 value1) as (K & _).
    now rewrite K. }
  assert (In name1 (dict_keys
                      (sections (snd (refine_component sk name2 value2)))))
    as I1'.
  { destruct (refine_component_frame sk name2 value2) as (K & _).
    now rewrite K. }
  rewrite (refine_all_cons _ _ _ _ I1), (refine_all_cons _ _ _ _ I2').
  rewrite (refine_all_cons _ _ _ _ I2), (refine_all_cons _ _ _ _ I1').
  cbn [refine_all].
  rewrite (refine_component_known _ _ value2 I2').
  rewrite (refine_component_known _ _ value1 I1').
  rewrite (refine_component_known sk _ _ I1).
  rewrite (refine_component_known sk _ _ I2).
  unfold edit_log. cbn.
  rewrite (dict_set_swap name2 name1) by (assumption || congruence).
  unfold append. rewrite <- !app_assoc. now repeat split.
Qed.

Lemma refinements_of_different_sections_commute_witness :
  "subject" <> "action" /\
  In "subject" (dict_keys (sections Sample.chef_skeleton)) /\
  In "action" (dict_keys (sections Sample.chef_skeleton)) /\
  sections (snd (refine_all [("subject", "a clown"); ("action", "juggling")]
                   Sample.chef_skeleton))
  = sections (snd (refine_all [("action", "juggling"); ("subject", "a clown")]
                     Sample.chef_skeleton)).
Proof.
  assert ("subject" <> "action") as N by discriminate.
  assert (In "subject" (dict_keys (sections Sample.chef_skeleton))) as I1
      by (simpl; tauto).
  assert (In "action" (dict_keys (sections Sample.chef_skeleton))) as I2
      by (simpl; tauto).
  split; [exact N |]. split; [exact I1 |]. split; [exact I2 |].
  apply (refinements_of_different_sections_commute
           Sample.chef_skeleton "subject" "a clown" "action" "juggling"
           N I1 I2).
Defined.

(** ** The token estimate *)

Lemma refine_component_tokens (sk : Skeleton) (name value : string) :
  tokens_consistent sk ->
  tokens_consistent (snd (refine_component sk name value)).
Proof.
  intros T. unfold refine_component.
  destruct (dict_mem name (sections sk)); simpl; [reflexivity | exact T].
Qed.

Lemma refine_all_tokens (edits : list (string * string)) :
  forall sk : Skeleton,
    tokens_consistent sk -> tokens_consistent (snd (refine_all edits sk)).
Proof.
  induction edits as [|[name value] rest IH]; intros sk T; [exact T |].
  cbn [refine_all].
  pose proof (refine_component_tokens sk name value T) as T'.
  destruct (refine_component sk name value) as [[[]|e] sk']; simpl in *.
  - now apply IH.
  - exact T'.
Qed.

(** X21.  The token estimate of an assembled skeleton stays in step with
    its sections through any sequence of refinements, failed ones
    included: it is never negative, and four times the estimate is at most
    the total length of the section texts and less than four more. *)
Theorem token_estimate_tracks_sections :
  forall (CATEGORIES : dict category_rules) (TEMPLATES : dict Template)
         (order_by_importance : dict pyval -> pyval -> list string -> dict pyval)
         (generate_negative_prompt : string -> dict category_rules -> string)
         (transformed : dict pyval) (category : string) (weights : pyval)
         (sk : Skeleton) (edits : list (string * string)),
    build_prompt_skeleton CATEGORIES TEMPLATES order_by_importance
      generate_negative_prompt transformed category weights = Ok sk ->
    let sk' := snd (refine_all edits sk) in
    let tokens := estimated_tokens (sk_metadata sk') in
    0 <= tokens /\
    4 * tokens <= section_chars sk' < 4 * tokens + 4.
Proof.
  intros C T o g transformed category weights sk edits E. cbn zeta.
  assert (tokens_consistent sk) as Tk.
  { apply (build_prompt_skeleton_metadata C T o g) in E. apply E. }
  pose proof (refine_all_tokens edits sk Tk) as Tk'.
  unfold tokens_consistent in Tk'. rewrite Tk', estimate_tokens_sum.
  fold (section_chars (snd (refine_all edits sk))).
  assert (0 <= section_chars (snd (refine_all edits sk))) as NN
      by (unfold section_chars; lia).
  pose proof (Z.div_mod (section_chars (snd (refine_all edits sk))) 4
                ltac:(lia)) as DM.
  pose proof (Z.mod_pos_bound (section_chars (snd (refine_all edits sk))) 4
                ltac:(lia)) as MB.
  split; [apply Z.div_pos; lia | lia].
Qed.

Lemma token_estimate_tracks_sections_witness :
  exists sk,
    Sample.build_prompt_skeleton
      [("subject", PyStr "a chef"); ("action", PyStr "tasting soup")]
      "kid_chaos" (weights_mapping [("subject", 35)]) = Ok sk /\
    let edits :=
      [("action",
        Sample.e_acute ++ Sample.e_acute ++ Sample.e_acute ++ Sample.e_acute);
       ("typography", "bubbly")] in
    estimated_tokens (sk_metadata (snd (refine_all edits sk))) = 2 /\
    section_chars (snd (refine_all edits sk)) = 10 /\
    4 * 2 <= section_chars (snd (refine_all edits sk)) < 4 * 2 + 4.
Proof.
  eexists. split; [reflexivity |]. cbn zeta.
  split; [reflexivity |]. split; [reflexivity |].
  apply (token_estimate_tracks_sections
           Sample.CATEGORIES Sample.TEMPLATES Sample.order_by_importance
           Sample.generate_negative_prompt
           [("subject", PyStr "a chef"); ("action", PyStr "tasting soup")]
           "kid_chaos" (weights_mapping [("subject", 35)]) _
           [("action",
             Sample.e_acute ++ Sample.e_acute ++ Sample.e_acute
               ++ Sample.e_acute);
            ("typography", "bubbly")] eq_refl).
Defined.

(** ** More on the variant generator *)

Section VariantFacts.
Variable CATEGORIES : dict category_rules.
Variable TRANSFORMATION_MAPS : pyval.
Variable TEMPLATES : dict Template.
Variable apply_category_transformation :
  dict pyval -> category_rules -> pyval -> StyleParams -> dict pyval.
Variable order_by_importance :
  dict pyval -> pyval -> list string -> dict pyval.
Variable generate_negative_prompt : string -> dict category_rules -> string.

Let loop :=
  variants_loop CATEGORIES TRANSFORMATION_MAPS TEMPLATES
    apply_category_transformation order_by_importance
    generate_negative_prompt.
Let variants :=
  generate_variants CATEGORIES TRANSFORMATION_MAPS TEMPLATES
    apply_category_transformation order_by_importance
    generate_negative_prompt.
Let assemble :=
  build_prompt_skeleton CATEGORIES TEMPLATES order_by_importance
    generate_negative_prompt.

Lemma generate_variants_in_range (parsed : dict pyval) (category : string)
    (count : Z) :
  1 <= count <= 5 ->
  variants parsed category count
  = loop parsed category 0 (firstn (Z.to_nat count) param_sets) [].
Proof.
  intros R. unfold variants, generate_variants.
  assert ((count <? 1) || (count >? 5) = false) as ->; [| reflexivity].
  rewrite Z.gtb_ltb. apply orb_false_iff. rewrite !Z.ltb_ge. lia.
Qed.

Lemma first_presets_nonempty (count : Z) :
  1 <= count ->
  exists p rest, firstn (Z.to_nat count) param_sets = p :: rest.
Proof.
  intros R. destruct (Z.to_nat count) as [|n] eqn:E; [lia |].
  simpl. eexists _, _. reflexivity.
Qed.

(** What one round of the loop needs in order to go on. *)
Lemma variants_loop_extends (parsed : dict pyval) (category : string)
    (sets : list StyleParams) :
  forall (i : Z) (acc found : list Variant),
    loop parsed category i sets acc = Ok found ->
    exists vs,
      found = (acc ++ vs)%list /\
      List.length vs = List.length sets /\
      Forall (fun v =>
                exists transformed weights,
                  dict_get "semantic_weights" parsed = Some weights /\
                  assemble transformed category weights = Ok (v_skeleton v))
             vs.
Proof.
  induction sets as [|p sets IH]; intros i acc found E.
  - injection E as <-. exists []. rewrite app_nil_r. repeat split. constructor.
  - unfold loop in E. cbn [variants_loop] in E.
    destruct (apply_transformations _ _ _ _ _ _) as [tr|]; [| discriminate E].
    cbn [bind] in E. unfold dict_item in E.
    destruct (dict_get "semantic_weights" parsed) as [w|] eqn:Gw;
      [| discriminate E].
    cbn [bind] in E.
    destruct (build_prompt_skeleton _ _ _ _ tr category w) as [sk|] eqn:B;
      [| discriminate E].
    cbn [bind] in E.
    destruct (sp_name p) as [n|]; [| discriminate E]. cbn [bind] in E.
    apply IH in E as (vs & -> & L & F).
    eexists (_ :: vs). unfold append. rewrite <- app_assoc.
    split; [reflexivity |]. split; [simpl; now rewrite L |].
    constructor; [| exact F]. exists tr, w. split; [reflexivity | exact B].
Qed.

Lemma variants_loop_app (parsed : dict pyval) (category : string)
    (sets1 sets2 : list StyleParams) :
  forall (i : Z) (acc : list Variant),
    loop parsed category i (sets1 ++ sets2) acc
    = (found <- loop parsed category i sets1 acc ;;
       loop parsed category (i + Z.of_nat (List.length sets1)) sets2 found).
Proof.
  induction sets1 as [|p sets1 IH]; intros i acc.
  - simpl. now rewrite Z.add_0_r.
  - unfold loop in *. cbn [app variants_loop].
    destruct (apply_transformations _ _ _ _ _ _); [| reflexivity].
    cbn [bind]. destruct (dict_item _ _); [| reflexivity]. cbn [bind].
    destruct (build_prompt_skeleton _ _ _ _ _ _ _); [| reflexivity].
    cbn [bind]. destruct (sp_name p); [| reflexivity]. cbn [bind].
    rewrite IH. cbn [List.length].
    replace (i + 1 + Z.of_nat (List.length sets1))
      with (i + Z.of_nat (S (List.length sets1))) by lia.
    reflexivity.
Qed.

(** X22.  Asking for fewer variants gives a prefix of the longer answer:
    when [generate_variants] returns for a count, it returns for every
    smaller count from 1 on, with the first entries of that list. *)
Theorem variants_prefix (parsed : dict pyval) (category : string)
    (fewer more : Z) (vs : list Variant) :
  1 <= fewer <= more ->
  more <= 5 ->
  variants parsed category more = Ok vs ->
  variants parsed category fewer = Ok (firstn (Z.to_nat fewer) vs).
Proof.
  intros R M E.
  rewrite generate_variants_in_range in * by lia.
  assert (firstn (Z.to_nat more) param_sets
          = (firstn (Z.to_nat fewer) param_sets
             ++ skipn (Z.to_nat fewer) (firstn (Z.to_nat more) param_sets))%list)
    as Split.
  { rewrite <- (firstn_skipn (Z.to_nat fewer)
                  (firstn (Z.to_nat more) param_sets)) at 1.
    rewrite firstn_firstn. f_equal. f_equal. lia. }
  rewrite Split, variants_loop_app in E.
  destruct (loop parsed category 0 (firstn (Z.to_nat fewer) param_sets) [])
    as [found|] eqn:E1; [| discriminate E].
  cbn [bind] in E.
  pose proof (variants_loop_extends _ _ _ _ _ _ E1) as (vs1 & -> & L1 & _).
  apply variants_loop_extends in E as (vs2 & -> & _ & _).
  simpl. f_equal.
  assert (List.length vs1 = Z.to_nat fewer) as Len.
  { rewrite L1, length_firstn. change (List.length param_sets) with 5%nat.
    lia. }
  rewrite <- Len, firstn_app, Nat.sub_diag, firstn_all. simpl.
  now rewrite app_nil_r.
Qed.

(** X23.  With a count in 1..5, [generate_variants] fails before returning
    any variant when the category is not in the Rule Store (ValueError
    naming the category), else when the parsed components have no
    [semantic_weights] (KeyError), else when the category has no template
    (KeyError with the category). *)
Theorem variants_errors (parsed : dict pyval) (category : string) (count : Z) :
  1 <= count <= 5 ->
  (~ In category (dict_keys CATEGORIES) ->
   variants parsed category count
   = Raise (ValueError ("Unknown category: " ++ category))) /\
  (In category (dict_keys CATEGORIES) ->
   dict_get "semantic_weights" parsed = None ->
   variants parsed category count = Raise (KeyError "semantic_weights")) /\
  (In category (dict_keys CATEGORIES) ->
   dict_get "semantic_weights" parsed <> None ->
   dict_get category TEMPLATES = None ->
   variants parsed category count = Raise (KeyError category)).
Proof.
  intros R. rewrite generate_variants_in_range by exact R.
  destruct (first_presets_nonempty count) as (p & rest & ->); [lia |].
  unfold loop. cbn [variants_loop]. unfold apply_transformations.
  repeat split.
  - intros N. apply dict_get_None in N. now rewrite N.
  - intros I W. destruct (dict_get category CATEGORIES) eqn:G.
    + cbn [bind]. unfold dict_item. now rewrite W.
    + apply dict_get_None in G. tauto.
  - intros I W T. destruct (dict_get category CATEGORIES) eqn:G.
    + cbn [bind]. unfold dict_item.
      destruct (dict_get "semantic_weights" parsed); [| congruence].
      cbn [bind]. unfold build_prompt_skeleton. now rewrite T.
    + apply dict_get_None in G. tauto.
Qed.

(** X24.  All variants of one call share their emphasis, template and
    negative prompt, carry the requested category in their metadata and no
    [user_modifications]: the presets only change the sections. *)
Theorem variants_share_frame (parsed : dict pyval) (category : string)
    (count : Z) (vs : list Variant) (v1 v2 : Variant) :
  variants parsed category count = Ok vs ->
  In v1 vs ->
  In v2 vs ->
  emphasis (v_skeleton v1) = emphasis (v_skeleton v2) /\
  sk_template (v_skeleton v1) = sk_template (v_skeleton v2) /\
  negative_prompt (v_skeleton v1) = negative_prompt (v_skeleton v2) /\
  md_category (sk_metadata (v_skeleton v1)) = category /\
  user_modifications (sk_metadata (v_skeleton v1)) = None.
Proof.
  intros E I1 I2. unfold variants, generate_variants in E.
  destruct ((count <? 1) || (count >? 5)); [discriminate E |].
  apply variants_loop_extends in E as (vs' & -> & _ & F).
  simpl in I1, I2. rewrite Forall_forall in F.
  destruct (F _ I1) as (t1 & w1 & G1 & B1).
  destruct (F _ I2) as (t2 & w2 & G2 & B2).
  assert (w2 = w1) as -> by congruence.
  destruct (build_prompt_skeleton_metadata _ _ _ _ _ _ _ _ B1)
    as (U & _ & Ct & _).
  unfold assemble, build_prompt_skeleton in B1, B2.
  destruct (dict_get category TEMPLATES); [| discriminate B1].
  destruct (py_items w1); [| discriminate B1]. cbn [bind] in B1, B2.
  destruct (emphasis_loop _ _); [| discriminate B1]. cbn [bind] in B1, B2.
  injection B1 as <-. injection B2 as <-. now repeat split.
Qed.
End VariantFacts.

Lemma variants_prefix_witness :
  (1 <= 2 <= 5) /\
  exists vs,
    Sample.generate_variants Sample.chef "kid_chaos" 5 = Ok vs /\
    Sample.generate_variants Sample.chef "kid_chaos" 2 = Ok (firstn 2 vs).
Proof.
  assert (1 <= 2 <= 5) as R by lia.
  split; [exact R |]. eexists. split; [reflexivity |].
  apply (variants_prefix
           Sample.CATEGORIES Sample.TRANSFORMATION_MAPS Sample.TEMPLATES
           Sample.apply_category_transformation Sample.order_by_importance
           Sample.generate_negative_prompt Sample.chef "kid_chaos" 2 5 _ R
           ltac:(lia) eq_refl).
Defined.

Lemma variants_errors_witness :
  (1 <= 3 <= 5) /\
  ~ In "bogus" (dict_keys Sample.CATEGORIES) /\
  Sample.generate_variants Sample.chef "bogus" 3
  = Raise (ValueError "Unknown category: bogus") /\
  Sample.generate_variants [] "kid_chaos" 3
  = Raise (KeyError "semantic_weights").
Proof.
  assert (1 <= 3 <= 5) as R by lia.
  assert (~ In "bogus" (dict_keys Sample.CATEGORIES)) as N
      by (apply dict_get_None; reflexivity).
  split; [exact R |]. split; [exact N |].
  pose proof (fun parsed category =>
                variants_errors
                  Sample.CATEGORIES Sample.TRANSFORMATION_MAPS
                  Sample.TEMPLATES Sample.apply_category_transformation
                  Sample.order_by_importance Sample.generate_negative_prompt
                  parsed category 3 R) as V.
  split.
  - exact (proj1 (V Sample.chef "bogus") N).
  - apply (proj1 (proj2 (V [] "kid_chaos"))); [simpl; tauto | reflexivity].
Defined.

Lemma variants_share_frame_witness :
  exists vs v1 v2,
    Sample.generate_variants Sample.chef "kid_chaos" 2 = Ok vs /\
    vs = [v1; v2] /\
    emphasis (v_skeleton v1) = emphasis (v_skeleton v2) /\
    sections (v_skeleton v1) <> sections (v_skeleton v2).
Proof.
  eexists _, _, _. split; [reflexivity |]. split; [reflexivity |].
  split.
  - eapply (variants_share_frame
              Sample.CATEGORIES Sample.TRANSFORMATION_MAPS Sample.TEMPLATES
              Sample.apply_category_transformation Sample.order_by_importance
              Sample.generate_negative_prompt Sample.chef "kid_chaos" 2);
      [reflexivity | simpl; tauto | simpl; tauto].
  - discriminate.
Defined.

(** ** The parsing tool and the pipeline *)

Lemma dict_set_key_in {V : Type} (k : string) (v : V) (d : dict V) :
  In k (dict_keys (dict_set k v d)).
Proof.
  pose proof (dict_get_set_eq k v d) as G.
  destruct (in_dec string_dec k (dict_keys (dict_set k v d))) as [I | N];
    [exact I |].
  apply dict_get_None in N. congruence.
Qed.

(** X25.  [parse_prompt] returns the parser's components with
    [semantic_weights] set to the weights computed from them: every other
    entry is the parser's, the key is added last when the parser did not
    produce it and overwritten in place when it did. *)
Theorem parse_prompt_adds_weights :
  forall (maps : pyval) (parser : string -> pyval -> dict pyval)
         (calculate : dict pyval -> pyval) (user_prompt : string),
    let components := parser user_prompt maps in
    let parsed := parse_prompt maps parser calculate user_prompt in
    dict_get "semantic_weights" parsed = Some (calculate components) /\
    (forall k,
        k <> "semantic_weights" -> dict_get k parsed = dict_get k components) /\
    (~ In "semantic_weights" (dict_keys components) ->
     parsed
     = (components ++ [("semantic_weights", calculate components)])%list) /\
    (In "semantic_weights" (dict_keys components) ->
     dict_keys parsed = dict_keys components).
Proof.
  intros maps parser calculate user_prompt. cbn zeta. unfold parse_prompt.
  split; [apply dict_get_set_eq |].
  split; [intros k N; apply dict_get_set_neq; congruence |].
  split; [apply dict_set_fresh | apply dict_keys_set].
Qed.

(** X26.  The output of [parse_prompt] can go straight into
    [generate_variants]: when the computed weights are an integer mapping
    and the category is in the Rule Store with a template, every count in
    1..5 gives that many variants, each with an emphasis entry for exactly
    the weighted components. *)
Theorem parsed_prompt_feeds_variants :
  forall (CATEGORIES : dict category_rules) (maps : pyval)
         (TEMPLATES : dict Template)
         (transformation :
            dict pyval -> category_rules -> pyval -> StyleParams -> dict pyval)
         (order_by_importance : dict pyval -> pyval -> list string -> dict pyval)
         (generate_negative_prompt : string -> dict category_rules -> string)
         (parser : string -> pyval -> dict pyval)
         (calculate : dict pyval -> pyval)
         (user_prompt category : string) (count : Z)
         (rules : category_rules) (template : Template) (weights : dict Z),
    1 <= count <= 5 ->
    dict_get category CATEGORIES = Some rules ->
    dict_get category TEMPLATES = Some template ->
    calculate (parser user_prompt maps) = weights_mapping weights ->
    dict_wf weights ->
    exists vs,
      generate_variants CATEGORIES maps TEMPLATES transformation
        order_by_importance generate_negative_prompt
        (parse_prompt maps parser calculate user_prompt) category count
      = Ok vs /\
      Z.of_nat (List.length vs) = count /\
      Forall (fun v =>
                dict_keys (emphasis (v_skeleton v)) = dict_keys weights)
             vs.
Proof.
  intros C maps T tr obi gnp parser calculate user_prompt category count
         rules template weights R K Tm Cw Wf.
  set (parsed := parse_prompt maps parser calculate user_prompt).
  assert (dict_get "semantic_weights" parsed = Some (weights_mapping weights))
    as Gw.
  { unfold parsed, parse_prompt. now rewrite dict_get_set_eq, Cw. }
  rewrite generate_variants_in_range by exact R.
  destruct (variants_loop_spec C maps T tr obi gnp parsed category
              rules template weights K Tm Gw Wf
              (firstn (Z.to_nat count) param_sets) 0 []
              (Forall_firstn_of _ _ _ param_sets_named))
    as (vs & E & S & _ & P).
  exists vs. split; [exact E |]. split.
  - rewrite <- (length_map v_style_params), S, length_firstn.
    change (List.length param_sets) with 5%nat. lia.
  - eapply Forall_impl; [| exact P].
    intros v (transformed & _ & B).
    rewrite (build_prompt_skeleton_spec C T obi gnp _ _ _ _ Wf Tm) in B.
    cbv zeta in B. injection B as B. rewrite <- B. cbn [emphasis].
    unfold spec_emphasis, dict_keys. now rewrite map_map.
Qed.

Lemma parsed_prompt_feeds_variants_witness :
  (1 <= 3 <= 5) /\
  exists vs,
    Sample.generate_variants (SampleParser.parse_prompt "a quiet morning")
      "health_halo" 3 = Ok vs /\
    Z.of_nat (List.length vs) = 3.
Proof.
  assert (1 <= 3 <= 5) as R by lia.
  split; [exact R |].
  destruct (parsed_prompt_feeds_variants
              Sample.CATEGORIES Sample.TRANSFORMATION_MAPS Sample.TEMPLATES
              Sample.apply_category_transformation Sample.order_by_importance
              Sample.generate_negative_prompt
              SampleParser.parse_prompt_components
              SampleParser.calculate_semantic_weights
              "a quiet morning" "health_halo" 3 _ _
              [("subject", 10); ("action", 10); ("setting", 10);
               ("objects", 10); ("colors", 10); ("mood", 10)]
              R eq_refl eq_refl eq_refl
              ltac:(apply distinctb_sound; reflexivity))
    as (vs & E & L & _).
  exists vs. split; [exact E | exact L].
Defined.

(** X27.  On the output of [parse_prompt] the scorer's keyword test
    succeeds for every trigger keyword that occurs in the quoted key name
    'semantic_weights', whatever the prompt was: the weights key is part of
    the text the keywords are matched against. *)
Theorem weights_key_matches_keywords :
  forall (maps : pyval) (parser : string -> pyval -> dict pyval)
         (calculate : dict pyval -> pyval) (user_prompt keyword : string),
    str_in keyword "'semantic_weights'" = true ->
    str_in keyword
      (py_lower
         (py_str (PyDict (parse_prompt maps parser calculate user_prompt))))
    = true.
Proof.
  intros maps parser calculate user_prompt keyword K.
  eapply str_in_trans; [exact K |].
  change "'semantic_weights'" with (py_lower (repr_str "semantic_weights")).
  apply str_in_lower.
  change (py_str (PyDict ?d)) with (py_repr (PyDict d)).
  apply key_in_rendering. unfold parse_prompt. apply dict_set_key_in.
Qed.

Lemma weights_key_matches_keywords_witness :
  str_in "weight" "'semantic_weights'" = true /\
  str_in "weight"
    (py_lower (py_str (PyDict (SampleParser.parse_prompt "a quiet morning"))))
  = true.
Proof.
  split; [reflexivity |].
  apply (weights_key_matches_keywords
           Sample.TRANSFORMATION_MAPS SampleParser.parse_prompt_components
           SampleParser.calculate_semantic_weights "a quiet morning" "weight").
  reflexivity.
Defined.
